(** * Forestrie idtimestamp decoders

    A shallow embedding of the two scripts

    - [scripts/idtimestamp-unixms.py]   (function [unixms])
    - [scripts/idtimestamp_to_utc.py]   (function [idtimestamp_to_datetime])

    together with the parts of the Python runtime they call: [int] on a
    string, [bytes.fromhex], [bytes.hex], slicing and
    [datetime.utcfromtimestamp].

    Conventions.
    - A Python [str] is a list of characters.  Characters are the 256
      code points U+0000..U+00FF, carried by [ascii]; [len] is [length].
    - A Python [bytes] value is a list of integers in [0, 255].
    - Python integers are unbounded: [Z].
    - An exception aborts the function: results live in an error monad.
    - A float is represented by the rational number it is; the result of
      each float operation is rounded to binary64, to nearest with ties to
      even.  A [datetime] is represented by the instant it denotes (POSIX
      microseconds); its range (years 1..9999) is kept. *)

From Stdlib Require Import QArith Qround Qabs ZArith String Ascii DecimalString.
From Stdlib Require Import Bool Lia Lqa List.
Import ListNotations.
Local Open Scope list_scope.
Local Open Scope Z_scope.

(** ** Data *)

Definition str := list ascii.
Definition bytes := list Z.

Definition lit (s : string) : str := list_ascii_of_string s.

(** The exceptions the two functions can raise; all of them are
    [ValueError] in Python.  The first three are raised by the scripts
    themselves, the others by the runtime. *)
Inductive ValueError : Type :=
| InvalidLength (got : nat)          (* raise on line 22 *)
| InvalidPayloadLength (got : nat)   (* raise on lines 29-31 / 30-32 *)
| TooShort                           (* raise on lines 35-37, 41-43 / 36 *)
| InvalidLiteral (base : Z) (s : str) (* int(): invalid literal for int() with base .. *)
| MalformedHex (position : nat)      (* bytes.fromhex(): non-hexadecimal number found .. *)
| OutOfRange.                        (* utcfromtimestamp(): year .. is out of range *)

Inductive result (A : Type) : Type :=
| OK (a : A)
| Raise (e : ValueError).
Arguments OK {A} a.
Arguments Raise {A} e.

Definition bind {A B} (m : result A) (k : A -> result B) : result B :=
  match m with
  | OK a => k a
  | Raise e => Raise e
  end.

Notation "x <- m ;; k" := (bind m (fun x => k))
  (at level 61, m at next level, right associativity).
Notation "'raise_if' c 'then' e ;; k" := (if c then Raise e else k)
  (at level 61, c at next level, e at next level, right associativity).

(** Rendering of [{len(id_val)}] inside an f-string. *)
Definition decimal (n : nat) : str :=
  lit (NilEmpty.string_of_uint (Nat.to_uint n)).

(** The text of the exceptions raised by the scripts' own [raise]
    statements. *)
Definition message (e : ValueError) : option str :=
  match e with
  | InvalidLength n =>
      Some (lit "idtimestamp must be 16 or 18 hex chars, got " ++ decimal n)
  | InvalidPayloadLength n =>
      Some (lit "idtimestamp payload length must be 16 hex chars after epoch strip, got "
              ++ decimal n)
  | TooShort =>
      Some (lit "idtimestamp payload too short to strip sequence/generator bytes")
  | _ => None
  end.

(** ** The Python runtime *)

Module Py.

Definition ord (c : ascii) : Z := Z.of_N (N_of_ascii c).
Definition chr (n : Z) : ascii := ascii_of_N (Z.to_N n).

Definition between (lo hi n : Z) : bool := (lo <=? n) && (n <=? hi).

(** C-locale [isspace]: TAB, LF, VT, FF, CR and SPACE. *)
Definition isspace (c : ascii) : bool :=
  between 9 13 (ord c) || (ord c =? 32).

(** [str.isspace] per character, restricted to U+0000..U+00FF. *)
Definition unicode_isspace (c : ascii) : bool :=
  isspace c || between 28 31 (ord c) || (ord c =? 133) || (ord c =? 160).

(** Value of a character as a digit in bases up to 36; 37 when it is none. *)
Definition digit_value (c : ascii) : Z :=
  let n := ord c in
  if between 48 57 n then n - 48
  else if between 97 122 n then n - 97 + 10
  else if between 65 90 n then n - 65 + 10
  else 37.

Definition is_ascii (s : str) : bool := forallb (fun c => ord c <? 128) s.

(** [s.startswith(prefix)] *)
Fixpoint startswith (s prefix : str) {struct prefix} : bool :=
  match prefix, s with
  | [], _ => true
  | p :: prefix', c :: s' => Ascii.eqb c p && startswith s' prefix'
  | _ :: _, [] => false
  end.

(** *** [int(s, base)] for a string argument *)

(** Non-ASCII strings are first normalised: Unicode white space becomes a
    blank, Unicode decimal digits become ASCII digits, and the first
    character that is neither ends the string with a question mark.  No
    character in U+007F..U+00FF is a decimal digit. *)
Fixpoint transform_chars (s : str) : str :=
  match s with
  | [] => []
  | c :: s' =>
      if ord c <? 127 then c :: transform_chars s'
      else if unicode_isspace c then " "%char :: transform_chars s'
      else ["?"%char]
  end.

Definition transform (s : str) : str :=
  if is_ascii s then s else transform_chars s.

Fixpoint skip_spaces (s : str) : str :=
  match s with
  | c :: s' => if isspace c then skip_spaces s' else s
  | [] => []
  end.

Definition take_sign (s : str) : Z * str :=
  match s with
  | c :: s' =>
      if Ascii.eqb c "+" then (1, s')
      else if Ascii.eqb c "-" then (-1, s')
      else (1, s)
  | [] => (1, s)
  end.

Definition is_radix_letter (base : Z) (c : ascii) : bool :=
  ((base =? 16) && (Ascii.eqb c "x" || Ascii.eqb c "X"))
  || ((base =? 8) && (Ascii.eqb c "o" || Ascii.eqb c "O"))
  || ((base =? 2) && (Ascii.eqb c "b" || Ascii.eqb c "B")).

(** A [0x], [0o] or [0b] matching the base is skipped, and one underscore
    after it. *)
Definition skip_radix (base : Z) (s : str) : str :=
  match s with
  | z :: c :: s' =>
      if Ascii.eqb z "0" && is_radix_letter base c then
        match s' with
        | u :: s'' => if Ascii.eqb u "_" then s'' else s'
        | [] => s'
        end
      else s
  | _ => s
  end.

(** The digit loop: digits below [base] with single underscores between
    them.  [prev_us] tells whether the previous character was an
    underscore, [acc] is the value so far and [n] the number of digits
    seen.  Returns the value, the number of digits and the unread rest;
    [None] on a doubled or trailing underscore. *)
Fixpoint scan_digits (base : Z) (prev_us : bool) (acc : Z) (n : nat) (s : str)
  : option (Z * nat * str) :=
  match s with
  | c :: s' =>
      if Ascii.eqb c "_" then
        if prev_us then None else scan_digits base true acc n s'
      else if digit_value c <? base then
        scan_digits base false (acc * base + digit_value c) (S n) s'
      else if prev_us then None else Some (acc, n, s)
  | [] => if prev_us then None else Some (acc, n, s)
  end.

Definition long_from_string (base : Z) (s : str) : option Z :=
  let s := skip_spaces s in
  let '(sign, s) := take_sign s in
  let s := skip_radix base s in
  if match s with c :: _ => Ascii.eqb c "_" | [] => false end then None
  else
    match scan_digits base false 0 0 s with
    | None => None
    | Some (v, n, rest) =>
        if (n =? 0)%nat then None
        else match skip_spaces rest with
             | [] => Some (sign * v)
             | _ :: _ => None
             end
    end.

Definition int (s : str) (base : Z) : result Z :=
  match long_from_string base (transform s) with
  | Some v => OK v
  | None => Raise (InvalidLiteral base s)
  end.

(** *** [bytes.fromhex(s)] *)

(** Index of the first character outside ASCII. *)
Fixpoint first_non_ascii (pos : nat) (s : str) : nat :=
  match s with
  | c :: s' => if ord c <? 128 then first_non_ascii (S pos) s' else pos
  | [] => pos
  end.

(** The conversion loop, one character at a time.  [top] is [None] between
    bytes, where white space is skipped, and [Some t] when the high digit
    [t] of a byte has been read and the low digit must follow. *)
Fixpoint fromhex_loop (pos : nat) (top : option Z) (s : str) : result bytes :=
  match s, top with
  | [], None => OK []
  | [], Some _ => Raise (MalformedHex pos)
  | c :: s', None =>
      if isspace c then fromhex_loop (S pos) None s'
      else if digit_value c <? 16 then fromhex_loop (S pos) (Some (digit_value c)) s'
      else Raise (MalformedHex pos)
  | c :: s', Some t =>
      if digit_value c <? 16 then
        bs <- fromhex_loop (S pos) None s' ;;
        OK (Z.shiftl t 4 + digit_value c :: bs)
      else Raise (MalformedHex pos)
  end.

Definition fromhex (s : str) : result bytes :=
  if is_ascii s then fromhex_loop 0 None s
  else Raise (MalformedHex (first_non_ascii 0 s)).

(** *** [b.hex()] *)

Definition hex_digit (d : Z) : ascii :=
  if d <? 10 then chr (48 + d) else chr (87 + d).

Fixpoint hex (b : bytes) : str :=
  match b with
  | [] => []
  | x :: b' => hex_digit (Z.shiftr x 4) :: hex_digit (Z.land x 15) :: hex b'
  end.

(** *** [x[:-k]] *)
Definition drop_last {A} (k : nat) (x : list A) : list A :=
  firstn (length x - k) x.

(** *** Floats

    Results beyond the binary64 range (overflow to infinity) are not
    represented: every float this file computes is below [2^47] in
    magnitude. *)

(** Nearest integer, ties to even. *)
Definition round_half_even (q : Q) : Z :=
  let f := Qfloor q in
  match Qcompare (q - inject_Z f) (1 # 2) with
  | Lt => f
  | Gt => f + 1
  | Eq => if Z.even f then f else f + 1
  end.

(** [q * 2^e] *)
Definition mul_pow2 (q : Q) (e : Z) : Q :=
  if 0 <=? e then (Qnum q * 2 ^ e) # Qden q
  else Qnum q # (Qden q * Z.to_pos (2 ^ (- e))).

(** [floor (log2 a)] for a positive rational. *)
Definition log2_floor (a : Q) : Z :=
  let k := Z.log2 (Qnum a) - Z.log2 (Zpos (Qden a)) in
  if Qle_bool 1 (mul_pow2 a (- k)) then k else k - 1.

(** The binary64 number nearest to [q]: 53 significant bits, exponent of
    the last bit no less than -1074. *)
Definition binary64 (q : Q) : Q :=
  if Qnum q =? 0 then 0%Q
  else
    let a := Qabs q in
    let e := Z.max (log2_floor a - 52) (-1074) in
    let m := round_half_even (mul_pow2 a (- e)) in
    let r := mul_pow2 (inject_Z m) e in
    if Qnum q <? 0 then (- r)%Q else r.

(** [float(n)], [x / y] and [x * y] on floats. *)
Definition float_of_int (n : Z) : Q := binary64 (inject_Z n).
Definition truediv (x y : Q) : Q := binary64 (x / y).
Definition float_mul (x y : Q) : Q := binary64 (x * y).

(** *** [datetime.datetime.utcfromtimestamp(t)] *)

Record datetime : Type := { posix_us : Z }.

(** Seconds and microseconds of a float timestamp: [modf], the fraction
    times [1e6] rounded half to even, and the carry into the seconds. *)
Definition timeval (t : Q) : Z * Z :=
  let intpart := Z.quot (Qnum t) (Zpos (Qden t)) in
  let floatpart := (t - inject_Z intpart)%Q in
  let floatpart := float_mul floatpart (inject_Z 1000000) in
  let us := round_half_even floatpart in
  if 1000000 <=? us then (intpart + 1, us - 1000000)
  else if us <? 0 then (intpart - 1, us + 1000000)
  else (intpart, us).

(** The instant these denote. *)
Definition instant (t : Q) : datetime :=
  {| posix_us := fst (timeval t) * 1000000 + snd (timeval t) |}.

(** First second of year 1 and first second of year 10000. *)
Definition min_seconds : Z := -62135596800.
Definition end_seconds : Z := 253402300800.

Definition utcfromtimestamp (t : Q) : result datetime :=
  let '(timet, us) := timeval t in
  if (min_seconds <=? timet) && (timet <? end_seconds)
  then OK {| posix_us := timet * 1000000 + us |}
  else Raise OutOfRange.

End Py.

(** ** [scripts/idtimestamp-unixms.py] *)

(** [unixms(id_val, epoch=1)]; the comments give the source lines.
    [epoch] is an int; the default is supplied by the caller as [1].  The
    block of lines 33-37 is repeated at lines 39-43, as in the source. *)
Definition unixms (id_val : str) (epoch : Z) : result Z :=
  (* 18-19 *)
  let id_val : str :=
    if Py.startswith id_val (lit "0x") then skipn 2 id_val else id_val in
  (* 21-22 *)
  raise_if negb (existsb (Nat.eqb (length id_val)) [16; 18]%nat)
    then InvalidLength (length id_val) ;;
  (* 24-26 *)
  st <- (if (length id_val =? 18)%nat
         then epoch <- Py.int (firstn 2 id_val) 10 ;; OK (epoch, skipn 2 id_val)
         else OK (epoch, id_val)) ;;
  let '(epoch, id_val) := st in
  (* 28-31 *)
  raise_if negb (length id_val =? 16)%nat
    then InvalidPayloadLength (length id_val) ;;
  (* 33-37 *)
  raw_bytes <- Py.fromhex id_val ;;
  raise_if (length raw_bytes <? 3)%nat then TooShort ;;
  (* 39-43 *)
  raw_bytes <- Py.fromhex id_val ;;
  raise_if (length raw_bytes <? 3)%nat then TooShort ;;
  (* 45-46 *)
  t <- Py.int (Py.hex (Py.drop_last 3 raw_bytes)) 16 ;;
  let unixms := t + epoch * (2 ^ 40 - 1) in
  OK unixms.

(** ** [scripts/idtimestamp_to_utc.py] *)

(** [idtimestamp_to_datetime(id_val)] returns the tuple
    [(datetime, unixms, seconds)]. *)
Definition idtimestamp_to_datetime (id_val : str) : result (Py.datetime * Z * Q) :=
  (* 18-19 *)
  let id_val : str :=
    if Py.startswith id_val (lit "0x") then skipn 2 id_val else id_val in
  (* 21-22 *)
  raise_if negb (existsb (Nat.eqb (length id_val)) [16; 18]%nat)
    then InvalidLength (length id_val) ;;
  (* 24-27 *)
  let epoch := 1 in
  st <- (if (length id_val =? 18)%nat
         then epoch <- Py.int (firstn 2 id_val) 10 ;; OK (epoch, skipn 2 id_val)
         else OK (epoch, id_val)) ;;
  let '(epoch, id_val) := st in
  (* 29-32 *)
  raise_if negb (length id_val =? 16)%nat
    then InvalidPayloadLength (length id_val) ;;
  (* 34-36 *)
  raw_bytes <- Py.fromhex id_val ;;
  raise_if (length raw_bytes <? 3)%nat then TooShort ;;
  (* 38-40 *)
  t <- Py.int (Py.hex (Py.drop_last 3 raw_bytes)) 16 ;;
  let unixms := t + epoch * (2 ^ 40 - 1) in
  let seconds := Py.truediv (Py.float_of_int unixms) (inject_Z 1000) in
  dt <- Py.utcfromtimestamp seconds ;;
  OK (dt, unixms, seconds).

(** The second component of the returned tuple. *)
Definition milliseconds (t : Py.datetime * Z * Q) : Z := snd (fst t).

(** ** Vocabulary of the specification *)

(** The input once an optional leading [0x] is removed (lines 18-19). *)
Definition strip_prefix (id_val : str) : str :=
  if Py.startswith id_val (lit "0x") then skipn 2 id_val else id_val.

(** Hexadecimal digits [0-9a-fA-F] and decimal digits [0-9]. *)
Definition is_hex_digit (c : ascii) : bool :=
  let n := Py.ord c in
  Py.between 48 57 n || Py.between 97 102 n || Py.between 65 70 n.

Definition is_decimal_digit (c : ascii) : bool :=
  Py.between 48 57 (Py.ord c).

Definition hex_string (s : str) : bool := forallb is_hex_digit s.

(** The bytes written by a string of hexadecimal digits, two digits each. *)
Fixpoint hex_pairs (s : str) : bytes :=
  match s with
  | hi :: lo :: s' => 16 * Py.digit_value hi + Py.digit_value lo :: hex_pairs s'
  | _ => []
  end.

Definition is_byte (x : Z) : Prop := 0 <= x < 256.

(** Big-endian unsigned value of a byte string. *)
Definition be_uint (b : bytes) : Z :=
  fold_left (fun acc x => 256 * acc + x) b 0.


(** The epoch selector of an input: the default for the 16-character
    form, the leading two characters read by [int] for the 18-character
    form. *)
Definition epoch_selector (default : Z) (id_val : str) : result Z :=
  let s := strip_prefix id_val in
  if (length s =? 18)%nat then Py.int (firstn 2 s) 10 else OK default.

(** The payload: what remains once the selector, if any, is removed. *)
Definition payload (id_val : str) : str :=
  let s := strip_prefix id_val in
  if (length s =? 18)%nat then skipn 2 s else s.

(** The time component: the first 5 bytes of the payload, big-endian. *)
Definition time_component (p : str) : Z := be_uint (firstn 5 (hex_pairs p)).

(** The formatter of section 4.2 of the specification:
    [format_utc(milliseconds) -> (utc_datetime, milliseconds, seconds)]
    with [seconds = milliseconds / 1000.0]. *)
Definition format_utc (ms : Z) : result (Py.datetime * Z * Q) :=
  let seconds := Py.truediv (Py.float_of_int ms) (inject_Z 1000) in
  dt <- Py.utcfromtimestamp seconds ;;
  OK (dt, ms, seconds).

(** ** Runs of the two functions, exit by exit

    A second reading of the same source text: one rule for every way
    control can leave the function (a [raise], a raising call, or the
    [return]), guarded by the conditions that lead there.  The rules are
    named after the line where control leaves; those for lines 39 and 41
    of [unixms] belong to its repeated block. *)

(** Control reaches the payload length check (line 28, resp. 29) with
    this epoch and this payload. *)
Inductive reaches_payload (id_val : str) (epoch : Z) : Z -> str -> Prop :=
| short_form :
    length (strip_prefix id_val) = 16%nat ->
    reaches_payload id_val epoch epoch (strip_prefix id_val)
| long_form e :
    length (strip_prefix id_val) = 18%nat ->
    Py.int (firstn 2 (strip_prefix id_val)) 10 = OK e ->
    reaches_payload id_val epoch e (skipn 2 (strip_prefix id_val)).

Inductive unixms_run (id_val : str) (epoch : Z) : result Z -> Prop :=
| unixms_raise_22 :
    length (strip_prefix id_val) <> 16%nat ->
    length (strip_prefix id_val) <> 18%nat ->
    unixms_run id_val epoch (Raise (InvalidLength (length (strip_prefix id_val))))
| unixms_raise_25 x :
    length (strip_prefix id_val) = 18%nat ->
    Py.int (firstn 2 (strip_prefix id_val)) 10 = Raise x ->
    unixms_run id_val epoch (Raise x)
| unixms_raise_29 e p :
    reaches_payload id_val epoch e p ->
    length p <> 16%nat ->
    unixms_run id_val epoch (Raise (InvalidPayloadLength (length p)))
| unixms_raise_33 e p x :
    reaches_payload id_val epoch e p -> length p = 16%nat ->
    Py.fromhex p = Raise x ->
    unixms_run id_val epoch (Raise x)
| unixms_raise_35 e p raw_bytes :
    reaches_payload id_val epoch e p -> length p = 16%nat ->
    Py.fromhex p = OK raw_bytes -> (length raw_bytes < 3)%nat ->
    unixms_run id_val epoch (Raise TooShort)
| unixms_raise_39 e p raw_bytes x :
    reaches_payload id_val epoch e p -> length p = 16%nat ->
    Py.fromhex p = OK raw_bytes -> (3 <= length raw_bytes)%nat ->
    Py.fromhex p = Raise x ->
    unixms_run id_val epoch (Raise x)
| unixms_raise_41 e p raw_bytes raw_bytes' :
    reaches_payload id_val epoch e p -> length p = 16%nat ->
    Py.fromhex p = OK raw_bytes -> (3 <= length raw_bytes)%nat ->
    Py.fromhex p = OK raw_bytes' -> (length raw_bytes' < 3)%nat ->
    unixms_run id_val epoch (Raise TooShort)
| unixms_raise_45 e p raw_bytes raw_bytes' x :
    reaches_payload id_val epoch e p -> length p = 16%nat ->
    Py.fromhex p = OK raw_bytes -> (3 <= length raw_bytes)%nat ->
    Py.fromhex p = OK raw_bytes' -> (3 <= length raw_bytes')%nat ->
    Py.int (Py.hex (Py.drop_last 3 raw_bytes')) 16 = Raise x ->
    unixms_run id_val epoch (Raise x)
| unixms_return_46 e p raw_bytes raw_bytes' t :
    reaches_payload id_val epoch e p -> length p = 16%nat ->
    Py.fromhex p = OK raw_bytes -> (3 <= length raw_bytes)%nat ->
    Py.fromhex p = OK raw_bytes' -> (3 <= length raw_bytes')%nat ->
    Py.int (Py.hex (Py.drop_last 3 raw_bytes')) 16 = OK t ->
    unixms_run id_val epoch (OK (t + e * (2 ^ 40 - 1))).

Inductive to_datetime_run (id_val : str) : result (Py.datetime * Z * Q) -> Prop :=
| to_datetime_raise_22 :
    length (strip_prefix id_val) <> 16%nat ->
    length (strip_prefix id_val) <> 18%nat ->
    to_datetime_run id_val (Raise (InvalidLength (length (strip_prefix id_val))))
| to_datetime_raise_26 x :
    length (strip_prefix id_val) = 18%nat ->
    Py.int (firstn 2 (strip_prefix id_val)) 10 = Raise x ->
    to_datetime_run id_val (Raise x)
| to_datetime_raise_30 e p :
    reaches_payload id_val 1 e p ->
    length p <> 16%nat ->
    to_datetime_run id_val (Raise (InvalidPayloadLength (length p)))
| to_datetime_raise_34 e p x :
    reaches_payload id_val 1 e p -> length p = 16%nat ->
    Py.fromhex p = Raise x ->
    to_datetime_run id_val (Raise x)
| to_datetime_raise_36 e p raw_bytes :
    reaches_payload id_val 1 e p -> length p = 16%nat ->
    Py.fromhex p = OK raw_bytes -> (length raw_bytes < 3)%nat ->
    to_datetime_run id_val (Raise TooShort)
| to_datetime_raise_38 e p raw_bytes x :
    reaches_payload id_val 1 e p -> length p = 16%nat ->
    Py.fromhex p = OK raw_bytes -> (3 <= length raw_bytes)%nat ->
    Py.int (Py.hex (Py.drop_last 3 raw_bytes)) 16 = Raise x ->
    to_datetime_run id_val (Raise x)
| to_datetime_raise_40 e p raw_bytes t x :
    reaches_payload id_val 1 e p -> length p = 16%nat ->
    Py.fromhex p = OK raw_bytes -> (3 <= length raw_bytes)%nat ->
    Py.int (Py.hex (Py.drop_last 3 raw_bytes)) 16 = OK t ->
    Py.utcfromtimestamp
      (Py.truediv (Py.float_of_int (t + e * (2 ^ 40 - 1))) (inject_Z 1000))
    = Raise x ->
    to_datetime_run id_val (Raise x)
| to_datetime_return_40 e p raw_bytes t dt :
    reaches_payload id_val 1 e p -> length p = 16%nat ->
    Py.fromhex p = OK raw_bytes -> (3 <= length raw_bytes)%nat ->
    Py.int (Py.hex (Py.drop_last 3 raw_bytes)) 16 = OK t ->
    Py.utcfromtimestamp
      (Py.truediv (Py.float_of_int (t + e * (2 ^ 40 - 1))) (inject_Z 1000))
    = OK dt ->
    to_datetime_run id_val
      (OK (dt, t + e * (2 ^ 40 - 1),
           Py.truediv (Py.float_of_int (t + e * (2 ^ 40 - 1))) (inject_Z 1000))).

(** ** The command lines

    Both files end in an [if __name__ == "__main__":] block.  What a run
    of a script leaves behind is the lines it printed on the two streams
    and its exit status. *)

(** [str(n)] for an int, as [print] and f-strings render it. *)
Definition str_of_int (n : Z) : str := lit (NilEmpty.string_of_int (Z.to_int n)).

(** ASCII lower case of a character, to state case-insensitivity. *)
Definition to_lower (c : ascii) : ascii :=
  if Py.between 65 90 (Py.ord c) then Py.chr (Py.ord c + 32) else c.

Record process : Type := { stdout : list str; stderr : list str; status : Z }.

Section ToUtcCommand.

(** Text produced by the runtime and not fixed by the script: [repr] of a
    string, [str] of an exception raised by the runtime, a float under
    [.3f], and [strftime]. *)
Variable repr : str -> str.
Variable runtime_text : ValueError -> str.
Variable format_3f : Q -> str.
Variable strftime : Py.datetime -> str -> str.

(** [str(exc)]: the script's own messages are known. *)
Definition exception_text (exc : ValueError) : str :=
  match message exc with
  | Some m => m
  | None => runtime_text exc
  end.

(** Lines 43-57 of [idtimestamp_to_utc.py], on [sys.argv]. *)
Definition to_utc_main (argv : list str) : process :=
  (* 44-46 *)
  if (length argv <? 2)%nat then
    {| stdout := [];
       stderr := [lit "Usage: idtimestamp_to_utc.py <idtimestamp_hex>"];
       status := 1 |}
  else
    (* 48 *)
    let id_hex := nth 1 argv [] in
    (* 49-53 *)
    match idtimestamp_to_datetime id_hex with
    | Raise exc =>
        {| stdout := [lit "Failed to convert idtimestamp " ++ repr id_hex
                        ++ lit ": " ++ exception_text exc];
           stderr := [];
           status := 0 |}
    | OK (dt_utc, unixms, seconds) =>
        (* 55-57 *)
        {| stdout :=
             [lit "Last idtimestamp as Unix ms: " ++ str_of_int unixms;
              lit "Last idtimestamp as Unix seconds: " ++ format_3f seconds;
              lit "Last idtimestamp as UTC:" ++ lit " "
                ++ strftime dt_utc (lit "%Y-%m-%dT%H:%M:%S.%fZ")];
           stderr := [];
           status := 0 |}
    end.

End ToUtcCommand.

(** [idtimestamp-unixms.py] passes the command-line words themselves to
    [unixms]: when a second word is given, [epoch] is a [str], not an
    int.  Line 45 then multiplies a string and adds it to an int. *)
Inductive pyobj : Type :=
| PyInt (n : Z)
| PyStr (s : str).

Inductive exception : Type :=
| Value (e : ValueError)
| TypeError
| MemoryError
| OverflowError.

Inductive outcome (A : Type) : Type :=
| Returns (a : A)
| Throws (e : exception).
Arguments Returns {A} a.
Arguments Throws {A} e.

Definition lift {A} (r : result A) : outcome A :=
  match r with
  | OK a => Returns a
  | Raise e => Throws (Value e)
  end.

Definition bind_outcome {A B} (m : outcome A) (k : A -> outcome B) : outcome B :=
  match m with
  | Returns a => k a
  | Throws e => Throws e
  end.

Notation "x <~ m ;; k" := (bind_outcome m (fun x => k))
  (at level 61, m at next level, right associativity).

(** How building a long string can fail. *)
Inductive repeat_failure : Type :=
| NoMemory     (* MemoryError *)
| TooLong.     (* OverflowError *)

Section UnixmsCommand.

(** Whether the machine fails to build [s * n], and how; [None] when it
    builds it.  This depends on the word size and on the memory at hand. *)
Variable repeat_fails : str -> Z -> option repeat_failure.

(** [x * n] for an int or a str [x] and an int [n]. *)
Definition py_mul (x : pyobj) (n : Z) : outcome pyobj :=
  match x with
  | PyInt e => Returns (PyInt (e * n))
  | PyStr s =>
      match repeat_fails s n with
      | Some NoMemory => Throws MemoryError
      | Some TooLong => Throws OverflowError
      | None => Returns (PyStr (concat (repeat s (Z.to_nat n))))
      end
  end.

(** [t + x] for an int [t]. *)
Definition py_add_int (t : Z) (x : pyobj) : outcome Z :=
  match x with
  | PyInt v => Returns (t + v)
  | PyStr _ => Throws TypeError
  end.

(** [unixms(id_val, epoch)] once more, for an [epoch] of either type. *)
Definition unixms_dyn (id_val : str) (epoch : pyobj) : outcome Z :=
  (* 18-19 *)
  let id_val : str :=
    if Py.startswith id_val (lit "0x") then skipn 2 id_val else id_val in
  (* 21-22 *)
  if negb (existsb (Nat.eqb (length id_val)) [16; 18]%nat)
  then Throws (Value (InvalidLength (length id_val))) else
  (* 24-26 *)
  st <~ (if (length id_val =? 18)%nat
         then epoch <~ lift (Py.int (firstn 2 id_val) 10) ;;
              Returns (PyInt epoch, skipn 2 id_val)
         else Returns (epoch, id_val)) ;;
  let '(epoch, id_val) := st in
  (* 28-31 *)
  if negb (length id_val =? 16)%nat
  then Throws (Value (InvalidPayloadLength (length id_val))) else
  (* 33-37 *)
  raw_bytes <~ lift (Py.fromhex id_val) ;;
  if (length raw_bytes <? 3)%nat then Throws (Value TooShort) else
  (* 39-43 *)
  raw_bytes <~ lift (Py.fromhex id_val) ;;
  if (length raw_bytes <? 3)%nat then Throws (Value TooShort) else
  (* 45-46 *)
  t <~ lift (Py.int (Py.hex (Py.drop_last 3 raw_bytes)) 16) ;;
  product <~ py_mul epoch (2 ^ 40 - 1) ;;
  unixms <~ py_add_int t product ;;
  Returns unixms.

(** Lines 49-50 of [idtimestamp-unixms.py]: [print(unixms( *sys.argv[1:]))].
    The result is the printed line, or the exception that ends the run. *)
Definition unixms_main (argv : list str) : outcome str :=
  match tl argv with
  | [] => Throws TypeError
  | [id_val] =>
      v <~ unixms_dyn id_val (PyInt 1) ;; Returns (str_of_int v)
  | [id_val; epoch] =>
      v <~ unixms_dyn id_val (PyStr epoch) ;; Returns (str_of_int v)
  | _ :: _ :: _ :: _ => Throws TypeError
  end.

End UnixmsCommand.

(** * Proofs *)

(** ** The runtime model on sample calls

    Each line is the result CPython gives for the same call. *)

Example int_plain : Py.int (lit "01") 10 = OK 1.
Proof. reflexivity. Qed.

Example int_signed :
  Py.int (lit "-1") 10 = OK (-1) /\ Py.int (lit "+5") 10 = OK 5.
Proof. split; reflexivity. Qed.

Example int_blanks :
  Py.int (lit " 5") 10 = OK 5 /\ Py.int (lit "5 ") 10 = OK 5 /\
  Py.int [Py.chr 160; "5"%char] 10 = OK 5 /\
  Py.int ["5"%char; Py.chr 133] 10 = OK 5 /\
  Py.int [Py.chr 28; "5"%char] 10 = Raise (InvalidLiteral 10 [Py.chr 28; "5"%char]).
Proof. repeat split; reflexivity. Qed.

Example int_rejects :
  Py.int (lit "ab") 10 = Raise (InvalidLiteral 10 (lit "ab")) /\
  Py.int (lit "1_") 10 = Raise (InvalidLiteral 10 (lit "1_")) /\
  Py.int (lit "_1") 10 = Raise (InvalidLiteral 10 (lit "_1")) /\
  Py.int (lit "0x") 10 = Raise (InvalidLiteral 10 (lit "0x")) /\
  Py.int (lit "  ") 10 = Raise (InvalidLiteral 10 (lit "  ")) /\
  Py.int [] 16 = Raise (InvalidLiteral 16 []).
Proof. repeat split; reflexivity. Qed.

Example int_base_16 :
  Py.int (lit "ff") 16 = OK 255 /\ Py.int (lit "0x1f") 16 = OK 31 /\
  Py.int (lit "0x_1f") 16 = OK 31 /\ Py.int (lit "0_1") 16 = OK 1 /\
  Py.int (lit "-0xf") 16 = OK (-15).
Proof. repeat split; reflexivity. Qed.

Example fromhex_digits :
  Py.fromhex (lit "AbCdEf0123456789") = OK [171; 205; 239; 1; 35; 69; 103; 137].
Proof. reflexivity. Qed.

Example fromhex_blanks :
  Py.fromhex (lit "aabbcc          ") = OK [170; 187; 204] /\
  Py.fromhex (lit "aabbccdd        ") = OK [170; 187; 204; 221] /\
  Py.fromhex (lit "                ") = OK [].
Proof. repeat split; reflexivity. Qed.

Example fromhex_rejects :
  Py.fromhex (lit "ZZZZZZZZZZZZZZZZ") = Raise (MalformedHex 0) /\
  Py.fromhex (lit "0 00000000000000") = Raise (MalformedHex 1) /\
  Py.fromhex (lit "00 00 00 00 00 0") = Raise (MalformedHex 16) /\
  Py.fromhex (lit "000000000000000 ") = Raise (MalformedHex 15) /\
  Py.fromhex (lit "000000000000000") = Raise (MalformedHex 15) /\
  Py.fromhex (lit "zz" ++ [Py.chr 128]) = Raise (MalformedHex 2).
Proof. repeat split; reflexivity. Qed.

Example hex_lower_case : Py.hex [170; 187; 1; 255] = lit "aabb01ff".
Proof. reflexivity. Qed.

Example drop_last_short : Py.drop_last 3 [170; 187] = [].
Proof. reflexivity. Qed.

Example decimal_rendering :
  decimal 0 = lit "0" /\ decimal 17 = lit "17" /\ decimal 120 = lit "120".
Proof. repeat split; reflexivity. Qed.

Example truediv_samples :
  Qred (Py.truediv (Py.float_of_int 1761932508557) (inject_Z 1000))
  = (7390080568370659 # 4194304)%Q /\
  Qred (Py.truediv (Py.float_of_int 8796093022200) (inject_Z 1000))
  = (2305843009211597 # 262144)%Q /\
  Qred (Py.truediv (Py.float_of_int (-9895604649975)) (inject_Z 1000))
  = (-5188146770726093 # 524288)%Q /\
  Qred (Py.truediv (Py.float_of_int 1) (inject_Z 1000))
  = (1152921504606847 # 1152921504606846976)%Q.
Proof. repeat split; vm_compute; reflexivity. Qed.

(** The microsecond of the result is that of the float, not always that of
    the milliseconds. *)
Example utcfromtimestamp_samples :
  Py.utcfromtimestamp (Py.truediv (Py.float_of_int 1099511627775) (inject_Z 1000))
  = OK {| Py.posix_us := 1099511627775000 |} /\
  Py.utcfromtimestamp (Py.truediv (Py.float_of_int 8796093022200) (inject_Z 1000))
  = OK {| Py.posix_us := 8796093022200001 |} /\
  Py.utcfromtimestamp (Py.truediv (Py.float_of_int 72122661456385) (inject_Z 1000))
  = OK {| Py.posix_us := 72122661456384995 |} /\
  Py.utcfromtimestamp (Py.truediv (Py.float_of_int (-9895604649975)) (inject_Z 1000))
  = OK {| Py.posix_us := -9895604649975000 |} /\
  Py.utcfromtimestamp (Py.truediv (Py.float_of_int (-1500)) (inject_Z 1000))
  = OK {| Py.posix_us := -1500000 |}.
Proof. repeat split; vm_compute; reflexivity. Qed.

(** ** Characters *)

(** Facts about one character are settled by running through the 256 of
    them. *)
Ltac each_char c :=
  destruct c as [[] [] [] [] [] [] [] []]; vm_compute;
  repeat split; intros; try discriminate; try reflexivity; try lia.

Lemma hex_digit_not_space c : is_hex_digit c = true -> Py.isspace c = false.
Proof. each_char c. Qed.

Lemma hex_digit_is_digit c : is_hex_digit c = true -> (Py.digit_value c <? 16) = true.
Proof. each_char c. Qed.

Lemma hex_digit_range c : is_hex_digit c = true -> 0 <= Py.digit_value c < 16.
Proof. each_char c. Qed.

Lemma hex_digit_ascii c : is_hex_digit c = true -> (Py.ord c <? 128) = true.
Proof. each_char c. Qed.

Lemma digit_value_nonneg c : 0 <= Py.digit_value c.
Proof. each_char c. Qed.

Lemma digit_16_is_hex c : (Py.digit_value c <? 16) = true -> is_hex_digit c = true.
Proof. each_char c. Qed.





Lemma hex_digit_plain c :
  is_hex_digit c = true ->
  Ascii.eqb c "_" = false /\ Ascii.eqb c "+" = false /\ Ascii.eqb c "-" = false /\
  Ascii.eqb c "x" = false /\ Ascii.eqb c "X" = false.
Proof. each_char c. Qed.

Lemma nibble_cases d :
  0 <= d < 16 ->
  In d [0; 1; 2; 3; 4; 5; 6; 7; 8; 9; 10; 11; 12; 13; 14; 15].
Proof. intros H. simpl. lia. Qed.

Lemma hex_digit_value d : 0 <= d < 16 -> Py.digit_value (Py.hex_digit d) = d.
Proof.
  intros H. apply nibble_cases in H. simpl in H.
  repeat (destruct H as [<- | H]; [reflexivity |]). contradiction.
Qed.

Lemma hex_digit_is_hex d : 0 <= d < 16 -> is_hex_digit (Py.hex_digit d) = true.
Proof.
  intros H. apply nibble_cases in H. simpl in H.
  repeat (destruct H as [<- | H]; [reflexivity |]). contradiction.
Qed.

(** ** [bytes.fromhex] *)

Lemma pair_induction (P : str -> Prop) :
  P [] -> (forall a, P [a]) -> (forall a b s, P s -> P (a :: b :: s)) ->
  forall s, P s.
Proof.
  intros Hnil Hone Hstep s.
  assert (H : P s /\ forall a, P (a :: s)).
  { induction s as [| c s [IH1 IH2]]; split; auto. }
  apply H.
Qed.

Lemma fromhex_loop_pair pos hi lo s :
  is_hex_digit hi = true -> is_hex_digit lo = true ->
  Py.fromhex_loop pos None (hi :: lo :: s) =
  (bs <- Py.fromhex_loop (S (S pos)) None s ;;
   OK (16 * Py.digit_value hi + Py.digit_value lo :: bs)).
Proof.
  intros Hhi Hlo. cbn [Py.fromhex_loop].
  rewrite (hex_digit_not_space _ Hhi), (hex_digit_is_digit _ Hhi),
    (hex_digit_is_digit _ Hlo).
  rewrite Z.shiftl_mul_pow2 by lia.
  replace (Py.digit_value hi * 2 ^ 4) with (16 * Py.digit_value hi) by lia.
  reflexivity.
Qed.

Lemma fromhex_loop_hex_string s :
  hex_string s = true -> Nat.even (length s) = true ->
  forall pos, Py.fromhex_loop pos None s = OK (hex_pairs s).
Proof.
  induction s as [| a | a b s IH] using pair_induction; intros Hhex Heven pos.
  - reflexivity.
  - discriminate.
  - unfold hex_string in Hhex. simpl in Hhex.
    apply andb_prop in Hhex as [Ha Hhex]. apply andb_prop in Hhex as [Hb Hhex].
    rewrite fromhex_loop_pair by assumption.
    rewrite IH by assumption. reflexivity.
Qed.

Lemma hex_string_is_ascii s : hex_string s = true -> Py.is_ascii s = true.
Proof.
  unfold hex_string, Py.is_ascii. rewrite !forallb_forall.
  intros H c Hc. apply hex_digit_ascii. auto.
Qed.

Lemma fromhex_hex_string s :
  hex_string s = true -> Nat.even (length s) = true ->
  Py.fromhex s = OK (hex_pairs s).
Proof.
  intros Hhex Heven. unfold Py.fromhex.
  rewrite hex_string_is_ascii by assumption.
  now apply fromhex_loop_hex_string.
Qed.

Lemma hex_pairs_length (s : str) : (2 * length (hex_pairs s) <= length s)%nat.
Proof.
  induction s as [| a | a b s IH] using pair_induction; simpl in *; lia.
Qed.

Lemma hex_pairs_length_even (s : str) :
  Nat.even (length s) = true -> (2 * length (hex_pairs s) = length s)%nat.
Proof.
  induction s as [| a | a b s IH] using pair_induction; simpl; intros H.
  - reflexivity.
  - discriminate.
  - specialize (IH H). lia.
Qed.

Lemma hex_pairs_bytes s : hex_string s = true -> Forall is_byte (hex_pairs s).
Proof.
  induction s as [| a | a b s IH] using pair_induction; cbn [hex_pairs];
    intros H; try constructor.
  - unfold hex_string in H. simpl in H.
    apply andb_prop in H as [Ha H]. apply andb_prop in H as [Hb H].
    apply hex_digit_range in Ha, Hb. unfold is_byte. lia.
  - apply IH. unfold hex_string in *. simpl in H.
    apply andb_prop in H as [_ H]. apply andb_prop in H as [_ H]. exact H.
Qed.

(** Whatever the input, the loop yields bytes, and at most one for every
    two characters read. *)
Lemma fromhex_loop_bound s :
  forall pos top bs,
    (forall t, top = Some t -> 0 <= t < 16) ->
    Py.fromhex_loop pos top s = OK bs ->
    (2 * length bs <= length s + match top with Some _ => 1 | None => 0 end)%nat
    /\ Forall is_byte bs.
Proof.
  induction s as [| c s IH]; intros pos top bs Htop H.
  - destruct top; simpl in H; [discriminate |].
    injection H as <-. split; [simpl; lia | constructor].
  - destruct top as [t |]; cbn [Py.fromhex_loop] in H.
    + destruct (Py.digit_value c <? 16) eqn:Hd; [| discriminate].
      destruct (Py.fromhex_loop (S pos) None s) as [bs' |] eqn:Hrec;
        cbn [bind] in H; [| discriminate].
      rewrite Z.shiftl_mul_pow2 in H by lia.
      injection H as <-.
      apply IH in Hrec as [Hlen Hall]; [| discriminate].
      split; [simpl in *; lia |].
      constructor; [| exact Hall].
      specialize (Htop t eq_refl). apply Z.ltb_lt in Hd.
      pose proof (digit_value_nonneg c).
      unfold is_byte. lia.
    + destruct (Py.isspace c).
      * apply IH in H as [Hlen Hall]; [| discriminate].
        split; [simpl in *; lia | exact Hall].
      * destruct (Py.digit_value c <? 16) eqn:Hd; [| discriminate].
        apply IH in H as [Hlen Hall].
        -- split; [simpl in *; lia | exact Hall].
        -- intros t [= <-]. apply Z.ltb_lt in Hd.
           pose proof (digit_value_nonneg c). lia.
Qed.

Lemma fromhex_bound s bs :
  Py.fromhex s = OK bs ->
  (2 * length bs <= length s)%nat /\ Forall is_byte bs.
Proof.
  unfold Py.fromhex. destruct (Py.is_ascii s); [| discriminate].
  intros H. apply fromhex_loop_bound in H; [| discriminate].
  destruct H as [H1 H2]. split; [lia | exact H2].
Qed.

(** ** [int] on a string *)

Lemma skip_spaces_length s : (length (Py.skip_spaces s) <= length s)%nat.
Proof.
  induction s as [| c s IH]; simpl; [lia |].
  destruct (Py.isspace c); simpl; lia.
Qed.

Lemma transform_chars_length s : (length (Py.transform_chars s) <= length s)%nat.
Proof.
  induction s as [| c s IH]; simpl; [lia |].
  destruct (Py.ord c <? 127); [simpl; lia |].
  destruct (Py.unicode_isspace c); simpl; lia.
Qed.

Lemma transform_length s : (length (Py.transform s) <= length s)%nat.
Proof.
  unfold Py.transform. destruct (Py.is_ascii s); [lia |].
  apply transform_chars_length.
Qed.

Lemma take_sign_cases s :
  (fst (Py.take_sign s) = 1 /\ (length (snd (Py.take_sign s)) <= length s)%nat) \/
  (fst (Py.take_sign s) = -1 /\ (length (snd (Py.take_sign s)) < length s)%nat).
Proof.
  destruct s as [| c s]; simpl; [left; split; [reflexivity | lia] |].
  destruct (Ascii.eqb c "+"); [left; simpl; split; [reflexivity | lia] |].
  destruct (Ascii.eqb c "-"); [right | left]; simpl; split; try reflexivity; lia.
Qed.

Lemma skip_radix_length base s : (length (Py.skip_radix base s) <= length s)%nat.
Proof.
  destruct s as [| z [| c s]]; simpl; try lia.
  destruct (Ascii.eqb z "0" && Py.is_radix_letter base c); simpl; [| lia].
  destruct s as [| u s]; simpl; [lia |].
  destruct (Ascii.eqb u "_"); simpl; lia.
Qed.

(** The digit loop reads a number below [base ^ length]. *)
Lemma scan_digits_bound base s :
  1 <= base ->
  forall prev acc n v n' rest,
    0 <= acc ->
    Py.scan_digits base prev acc n s = Some (v, n', rest) ->
    0 <= v /\ v + 1 <= (acc + 1) * base ^ Z.of_nat (length s).
Proof.
  intros Hbase. induction s as [| c s IH]; intros prev acc n v n' rest Hacc H.
  - simpl in H. destruct prev; [discriminate |]. injection H as <- _ _.
    simpl. lia.
  - assert (Hpow : 1 <= base ^ Z.of_nat (length s)).
    { change 1 with (Z.succ 0). apply Z.le_succ_l, Z.pow_pos_nonneg; lia. }
    replace (Z.of_nat (length (c :: s))) with (Z.succ (Z.of_nat (length s)))
      by (simpl length; lia).
    rewrite Z.pow_succ_r by lia.
    cbn [Py.scan_digits] in H.
    destruct (Ascii.eqb c "_").
    + destruct prev; [discriminate |].
      apply IH in H as [H0 H1]; [| exact Hacc]. split; [exact H0 | nia].
    + destruct (Py.digit_value c <? base) eqn:Hd.
      * apply Z.ltb_lt in Hd. pose proof (digit_value_nonneg c) as Hc.
        apply IH in H as [H0 H1]; [| nia]. split; [exact H0 | nia].
      * destruct prev; [discriminate |]. injection H as <- _ _.
        split; [exact Hacc | nia].
Qed.

Lemma long_from_string_bound base s v :
  1 <= base ->
  Py.long_from_string base s = Some v ->
  - base ^ Z.of_nat (pred (length s)) < v < base ^ Z.of_nat (length s).
Proof.
  intros Hbase. unfold Py.long_from_string.
  pose proof (skip_spaces_length s) as H1.
  pose proof (take_sign_cases (Py.skip_spaces s)) as H2.
  destruct (Py.take_sign (Py.skip_spaces s)) as [sign s2]; simpl in H2.
  pose proof (skip_radix_length base s2) as H3.
  set (s3 := Py.skip_radix base s2) in *.
  destruct (match s3 with c :: _ => Ascii.eqb c "_" | [] => false end);
    [discriminate |].
  destruct (Py.scan_digits base false 0 0 s3) as [[[v0 n] rest] |] eqn:Hscan;
    [| discriminate].
  destruct (n =? 0)%nat; [discriminate |].
  destruct (Py.skip_spaces rest); [| discriminate].
  intros [= <-].
  apply scan_digits_bound in Hscan as [Hv0 Hv1]; [| exact Hbase | lia].
  assert (Hmono : forall a b : nat, (a <= b)%nat ->
                  base ^ Z.of_nat a <= base ^ Z.of_nat b).
  { intros a b Hab. apply Z.pow_le_mono_r; lia. }
  assert (Hpos : forall a : nat, 0 < base ^ Z.of_nat a).
  { intros a. apply Z.pow_pos_nonneg; lia. }
  destruct H2 as [[-> H2] | [-> H2]].
  - pose proof (Hmono (length s3) (length s) ltac:(lia)).
    pose proof (Hpos (pred (length s))). lia.
  - pose proof (Hmono (length s3) (pred (length s)) ltac:(lia)).
    pose proof (Hpos (length s)). lia.
Qed.

(** A two-character string read in base 10 lies in [-9, 99]. *)
Lemma int_two_chars s v :
  length s = 2%nat -> Py.int s 10 = OK v -> -9 <= v <= 99.
Proof.
  intros Hlen. unfold Py.int.
  destruct (Py.long_from_string 10 (Py.transform s)) as [v0 |] eqn:H;
    [| discriminate].
  intros [= <-]. apply long_from_string_bound in H; [| lia].
  pose proof (transform_length s) as Ht. rewrite Hlen in Ht.
  assert (Hc : length (Py.transform s) = 0%nat \/ length (Py.transform s) = 1%nat
               \/ length (Py.transform s) = 2%nat) by lia.
  destruct Hc as [Hc | [Hc | Hc]]; rewrite Hc in H; simpl in H; lia.
Qed.

(** A string of hexadecimal digits has no white space, sign, radix prefix
    or leading underscore to skip, in base 10 and in base 16. *)
Lemma long_from_string_hex_string base s :
  base = 10 \/ base = 16 ->
  hex_string s = true ->
  Py.long_from_string base s =
  match Py.scan_digits base false 0 0 s with
  | None => None
  | Some (v, n, rest) =>
      if (n =? 0)%nat then None
      else match Py.skip_spaces rest with
           | [] => Some v
           | _ :: _ => None
           end
  end.
Proof.
  intros Hbase Hs. unfold Py.long_from_string.
  assert (Hradix : forall c, is_hex_digit c = true -> Py.is_radix_letter base c = false).
  { intros c Hc. apply hex_digit_plain in Hc as (_ & _ & _ & Hx & HX).
    unfold Py.is_radix_letter. rewrite Hx, HX.
    destruct Hbase as [-> | ->]; reflexivity. }
  assert (Hone : forall v, 1 * v = v) by (intros; lia).
  destruct s as [| c s]; [reflexivity |].
  unfold hex_string in Hs. simpl in Hs. apply andb_prop in Hs as [Hc Hs].
  pose proof (hex_digit_plain _ Hc) as (Hus & Hplus & Hminus & _ & _).
  cbn [Py.skip_spaces]. rewrite (hex_digit_not_space _ Hc).
  cbn [Py.take_sign]. rewrite Hplus, Hminus.
  assert (Hskip : Py.skip_radix base (c :: s) = c :: s).
  { destruct s as [| c2 s]; [reflexivity |]. simpl in Hs.
    apply andb_prop in Hs as [Hc2 _]. cbn [Py.skip_radix].
    rewrite (Hradix _ Hc2), andb_false_r. reflexivity. }
  rewrite Hskip, Hus.
  destruct (Py.scan_digits base false 0 0 (c :: s)) as [[[v n] rest] |];
    [| reflexivity].
  rewrite Hone. reflexivity.
Qed.

Lemma byte_nibbles x :
  is_byte x ->
  0 <= Z.shiftr x 4 < 16 /\ 0 <= Z.land x 15 < 16 /\
  x = 16 * Z.shiftr x 4 + Z.land x 15.
Proof.
  unfold is_byte. intros Hx.
  rewrite Z.shiftr_div_pow2 by lia.
  change 15 with (Z.ones 4). rewrite Z.land_ones by lia.
  change (2 ^ 4) with 16.
  pose proof (Z.div_mod x 16 ltac:(lia)).
  pose proof (Z.mod_pos_bound x 16 ltac:(lia)).
  assert (0 <= x / 16 < 16).
  { split; [apply Z.div_pos; lia | apply Z.div_lt_upper_bound; lia]. }
  lia.
Qed.

Lemma hex_is_hex_string b : Forall is_byte b -> hex_string (Py.hex b) = true.
Proof.
  induction 1 as [| x b Hx _ IH]; [reflexivity |].
  apply byte_nibbles in Hx as (Hhi & Hlo & _).
  unfold hex_string in *. cbn [Py.hex forallb].
  rewrite !hex_digit_is_hex by assumption. exact IH.
Qed.

(** Reading back the output of [hex] in base 16 folds the bytes
    big-endian. *)
Lemma scan_digits_hex b :
  Forall is_byte b ->
  forall acc n,
    Py.scan_digits 16 false acc n (Py.hex b) =
    Some (fold_left (fun a x => 256 * a + x) b acc, (n + 2 * length b)%nat, []).
Proof.
  induction 1 as [| x b Hx _ IH]; intros acc n.
  - simpl. f_equal. f_equal. f_equal. lia.
  - pose proof (byte_nibbles _ Hx) as (Hhi & Hlo & Hsplit).
    cbn [Py.hex Py.scan_digits fold_left].
    pose proof (hex_digit_plain _ (hex_digit_is_hex _ Hhi)) as (-> & _).
    pose proof (hex_digit_plain _ (hex_digit_is_hex _ Hlo)) as (-> & _).
    rewrite !hex_digit_value by assumption.
    destruct (Z.ltb_spec (Z.shiftr x 4) 16) as [_ |]; [| lia].
    destruct (Z.ltb_spec (Z.land x 15) 16) as [_ |]; [| lia].
    rewrite IH.
    replace (S (S n) + 2 * length b)%nat with (n + 2 * length (x :: b))%nat
      by (simpl length; lia).
    replace ((acc * 16 + Z.shiftr x 4) * 16 + Z.land x 15) with (256 * acc + x)
      by lia.
    reflexivity.
Qed.

Lemma int_hex b :
  Forall is_byte b -> b <> [] -> Py.int (Py.hex b) 16 = OK (be_uint b).
Proof.
  intros Hb Hne. unfold Py.int, Py.transform.
  pose proof (hex_is_hex_string _ Hb) as Hhex.
  rewrite (hex_string_is_ascii _ Hhex).
  rewrite long_from_string_hex_string by auto.
  rewrite scan_digits_hex by assumption.
  destruct b as [| x b]; [contradiction |]. reflexivity.
Qed.

Lemma int_hex_nil : Py.int (Py.hex []) 16 = Raise (InvalidLiteral 16 []).
Proof. reflexivity. Qed.

Lemma be_uint_bound b :
  Forall is_byte b -> 0 <= be_uint b < 256 ^ Z.of_nat (length b).
Proof.
  unfold be_uint. intros Hb.
  assert (H : forall acc, 0 <= acc ->
            0 <= fold_left (fun a x => 256 * a + x) b acc /\
            fold_left (fun a x => 256 * a + x) b acc + 1
              <= (acc + 1) * 256 ^ Z.of_nat (length b)).
  { induction Hb as [| x b Hx _ IH]; intros acc Hacc.
    - simpl. lia.
    - replace (Z.of_nat (length (x :: b))) with (Z.succ (Z.of_nat (length b)))
        by (simpl length; lia).
      rewrite Z.pow_succ_r by lia. cbn [fold_left].
      unfold is_byte in Hx.
      assert (0 < 256 ^ Z.of_nat (length b)) by (apply Z.pow_pos_nonneg; lia).
      destruct (IH (256 * acc + x) ltac:(lia)) as [H0 H1].
      split; [exact H0 | nia]. }
  destruct (H 0 ltac:(lia)). lia.
Qed.




(** ** [utcfromtimestamp] *)

Lemma round_half_even_near x :
  2 * Z.abs (Py.round_half_even x * QDen x - Qnum x) <= QDen x.
Proof.
  destruct x as [n d]. unfold Py.round_half_even, Qfloor. cbn [Qnum Qden].
  pose proof (Z.div_mod n (Zpos d) ltac:(lia)) as Hdm.
  pose proof (Z.mod_pos_bound n (Zpos d) ltac:(lia)) as Hr.
  set (f := n / Zpos d) in *. set (r := n mod Zpos d) in *.
  unfold Qcompare, Qminus, Qplus, Qopp, inject_Z. cbn [Qnum Qden].
  destruct (Z.compare_spec ((n * 1 + - f * Zpos d) * 2) (1 * Zpos (d * 1)))
    as [H | H | H]; rewrite ?Pos2Z.inj_mul in H.
  - destruct (Z.even f); lia.
  - lia.
  - lia.
Qed.

Lemma mul_pow2_up q e : 0 <= e -> Py.mul_pow2 q e = (Qnum q * 2 ^ e) # Qden q.
Proof.
  intros H. unfold Py.mul_pow2. destruct (Z.leb_spec 0 e); [reflexivity | lia].
Qed.

Lemma mul_pow2_down q e :
  e < 0 -> Py.mul_pow2 q e = Qnum q # (Qden q * Z.to_pos (2 ^ (- e))).
Proof.
  intros H. unfold Py.mul_pow2. destruct (Z.leb_spec 0 e); [lia | reflexivity].
Qed.

Lemma log2_floor_le (a : Q) b :
  0 <= b -> 0 < Qnum a -> Qnum a <= 2 ^ b * QDen a -> Py.log2_floor a <= b.
Proof.
  intros Hb Hpos Hle. unfold Py.log2_floor.
  assert (Z.log2 (Qnum a) <= b + Z.log2 (QDen a)).
  { rewrite <- Z.log2_mul_pow2 by lia. apply Z.log2_le_mono. lia. }
  destruct (Qle_bool 1 _); lia.
Qed.

(** Below [2^50] rounding to binary64 moves a number by less than 1. *)
Lemma binary64_near q :
  (- inject_Z (2 ^ 50) <= q <= inject_Z (2 ^ 50))%Q ->
  (q - 1 <= Py.binary64 q <= q + 1)%Q.
Proof.
  intros [Hlo Hhi]. unfold Py.binary64.
  destruct (Z.eqb_spec (Qnum q) 0) as [Hz | Hnz].
  { destruct q as [n d]. cbn in Hz. subst n. unfold Qle. cbn. lia. }
  set (a := Qabs q).
  assert (Ha : Qnum a = Z.abs (Qnum q) /\ Qden a = Qden q)
    by (destruct q; split; reflexivity).
  destruct Ha as [Han Had].
  assert (Hbound : Qnum a <= 2 ^ 50 * QDen a).
  { rewrite Han, Had. destruct q as [n d]. unfold Qle in Hlo, Hhi.
    cbn in *. lia. }
  pose proof (log2_floor_le a 50 ltac:(lia) ltac:(lia) Hbound) as Hl.
  set (e := Z.max (Py.log2_floor a - 52) (-1074)).
  assert (He : e <= -2) by lia.
  rewrite (mul_pow2_up a (- e)) by lia.
  rewrite (mul_pow2_down _ e) by lia.
  set (P := 2 ^ (- e)).
  assert (HP : 4 <= P).
  { unfold P. change 4 with (2 ^ 2). apply Z.pow_le_mono_r; lia. }
  pose proof (round_half_even_near ((Qnum a * P) # Qden a)) as Hm.
  cbn [Qnum Qden] in Hm.
  set (m := Py.round_half_even ((Qnum a * P) # Qden a)) in *.
  cbn [inject_Z Qnum Qden].
  rewrite Han, Had in Hm.
  destruct q as [n d]. cbn [Qnum Qden] in *.
  assert (HPpos : Zpos (Z.to_pos P) = P) by (apply Z2Pos.id; lia).
  destruct (Z.ltb_spec n 0) as [Hneg | Hpos];
    unfold Qle, Qminus, Qplus, Qopp; cbn [Qnum Qden];
    rewrite ?Pos2Z.inj_mul, ?HPpos; nia.
Qed.

(** [ms / 1000.0] for the milliseconds the decoders can produce. *)
Lemma seconds_range ms :
  -9 * (2 ^ 40 - 1) <= ms < 100 * 2 ^ 40 ->
  (inject_Z (-9895604652)
   <= Py.truediv (Py.float_of_int ms) (inject_Z 1000)
   <= inject_Z 109951162780)%Q.
Proof.
  intros H. unfold Py.truediv, Py.float_of_int.
  change (2 ^ 40) with 1099511627776 in H.
  assert (Hlo : -9895604649975 <= ms) by lia.
  assert (Hhi : ms <= 109951162777600) by lia.
  clear H. rewrite Zle_Qle in Hlo, Hhi.
  set (q := inject_Z ms) in *.
  assert (Hx : (q - 1 <= Py.binary64 q <= q + 1)%Q).
  { apply binary64_near. change (2 ^ 50) with 1125899906842624.
    unfold inject_Z in *. split; lra. }
  set (x := Py.binary64 q) in *.
  unfold Qdiv. change (/ inject_Z 1000)%Q with (1 # 1000)%Q.
  assert (Hy : (x * (1 # 1000) - 1 <= Py.binary64 (x * (1 # 1000))
                <= x * (1 # 1000) + 1)%Q).
  { apply binary64_near. change (2 ^ 50) with 1125899906842624.
    unfold inject_Z in *. split; lra. }
  unfold inject_Z in *. split; lra.
Qed.

(** The seconds of a timestamp are within 1 of its integer bounds. *)
Lemma timeval_range t lo hi :
  (inject_Z lo <= t <= inject_Z hi)%Q ->
  lo - 1 <= fst (Py.timeval t) <= hi + 1.
Proof.
  intros [Hlo Hhi]. unfold Py.timeval.
  set (intpart := Z.quot (Qnum t) (QDen t)).
  assert (Hint : lo <= intpart <= hi).
  { unfold intpart. destruct t as [n d]. unfold Qle in Hlo, Hhi.
    cbn [Qnum Qden inject_Z] in *.
    rewrite Z.mul_1_r in Hlo, Hhi.
    split.
    - rewrite <- (Z.quot_mul lo (Zpos d)) by lia. apply Z.quot_le_mono; lia.
    - rewrite <- (Z.quot_mul hi (Zpos d)) by lia. apply Z.quot_le_mono; lia. }
  destruct (1000000 <=? _); [cbn [fst]; lia |].
  destruct (_ <? 0); cbn [fst]; lia.
Qed.

(** Inside years 1..9999 the conversion succeeds. *)
Lemma utcfromtimestamp_ms ms :
  -9 * (2 ^ 40 - 1) <= ms < 100 * 2 ^ 40 ->
  Py.utcfromtimestamp (Py.truediv (Py.float_of_int ms) (inject_Z 1000))
  = OK (Py.instant (Py.truediv (Py.float_of_int ms) (inject_Z 1000))).
Proof.
  intros H. apply seconds_range, timeval_range in H.
  unfold Py.utcfromtimestamp, Py.instant.
  destruct (Py.timeval _) as [timet us]. cbn [fst snd] in *.
  unfold Py.min_seconds, Py.end_seconds.
  destruct (Z.leb_spec (-62135596800) timet); [| lia].
  destruct (Z.ltb_spec timet 253402300800); [| lia].
  reflexivity.
Qed.

(** ** The functions and their runs *)

Lemma reaches_payload_length id_val epoch e p :
  reaches_payload id_val epoch e p -> length p = 16%nat.
Proof.
  intros [H | e' H _]; [exact H |]. rewrite length_skipn, H. reflexivity.
Qed.

Ltac run_lines :=
  repeat match goal with
    | H : length _ = _ |- _ => rewrite !H
    | H : Py.int _ _ = _ |- _ => rewrite !H
    | H : Py.fromhex _ = _ |- _ => rewrite !H
    | H : Py.utcfromtimestamp _ = _ |- _ => rewrite !H
    | H : (3 <= length ?b)%nat |- context [(length ?b <? 3)%nat] =>
        destruct (Nat.ltb_spec (length b) 3); [lia |]
    | H : (length ?b < 3)%nat |- context [(length ?b <? 3)%nat] =>
        destruct (Nat.ltb_spec (length b) 3); [| lia]
    | H : length ?s <> ?n |- context [(length ?s =? ?n)%nat] =>
        destruct (Nat.eqb_spec (length s) n); [contradiction |]
    | |- _ => progress cbn [existsb Nat.eqb orb negb bind]
    end.

Lemma unixms_run_sound id_val epoch o :
  unixms_run id_val epoch o -> unixms id_val epoch = o.
Proof.
  intros H. unfold unixms. cbn zeta.
  destruct H.
  all: try match goal with
       | H : reaches_payload _ _ _ _ |- _ =>
           pose proof (reaches_payload_length _ _ _ _ H); destruct H
       end.
  all: try (exfalso; lia).
  all: unfold strip_prefix in *; run_lines; reflexivity.
Qed.

Lemma to_datetime_run_sound id_val o :
  to_datetime_run id_val o -> idtimestamp_to_datetime id_val = o.
Proof.
  intros H. unfold idtimestamp_to_datetime. cbn zeta.
  destruct H.
  all: try match goal with
       | H : reaches_payload _ _ _ _ |- _ =>
           pose proof (reaches_payload_length _ _ _ _ H); destruct H
       end.
  all: try (exfalso; lia).
  all: unfold strip_prefix in *; run_lines; reflexivity.
Qed.

(** Every call has a run: the rules cover all the ways out. *)
Lemma reaches_payload_or_not id_val epoch :
  (length (strip_prefix id_val) <> 16%nat /\ length (strip_prefix id_val) <> 18%nat)
  \/ (length (strip_prefix id_val) = 18%nat /\
      exists x, Py.int (firstn 2 (strip_prefix id_val)) 10 = Raise x)
  \/ (exists e p, reaches_payload id_val epoch e p).
Proof.
  destruct (Nat.eq_dec (length (strip_prefix id_val)) 16) as [H16 | H16].
  { right. right. eexists _, _. apply short_form. exact H16. }
  destruct (Nat.eq_dec (length (strip_prefix id_val)) 18) as [H18 | H18].
  2: { left. split; assumption. }
  destruct (Py.int (firstn 2 (strip_prefix id_val)) 10) as [e | x] eqn:Hint.
  - right. right. eexists _, _. apply long_form; eassumption.
  - right. left. split; [exact H18 | eauto].
Qed.

Lemma unixms_run_total id_val epoch : exists o, unixms_run id_val epoch o.
Proof.
  destruct (reaches_payload_or_not id_val epoch)
    as [[H16 H18] | [[H18 [x Hx]] | (e & p & Hp)]].
  - eexists. apply unixms_raise_22; assumption.
  - eexists. eapply unixms_raise_25; eassumption.
  - pose proof (reaches_payload_length _ _ _ _ Hp) as Hlen.
    destruct (Py.fromhex p) as [raw_bytes | x] eqn:Hhex.
    2: { eexists. eapply unixms_raise_33; eassumption. }
    destruct (Nat.lt_ge_cases (length raw_bytes) 3) as [Hshort | Hlong].
    { eexists. eapply unixms_raise_35; eassumption. }
    destruct (Py.int (Py.hex (Py.drop_last 3 raw_bytes)) 16) as [t | x] eqn:Hint.
    + eexists. eapply unixms_return_46; eassumption.
    + eexists. eapply unixms_raise_45 with (raw_bytes' := raw_bytes); eassumption.
Qed.


(** ** From the vocabulary of the specification to runs *)

Lemma reaches_payload_intro id_val epoch sel :
  length (strip_prefix id_val) = 16%nat \/ length (strip_prefix id_val) = 18%nat ->
  epoch_selector epoch id_val = OK sel ->
  reaches_payload id_val epoch sel (payload id_val).
Proof.
  unfold epoch_selector, payload. cbn zeta.
  intros [H | H]; rewrite H; cbn [Nat.eqb]; intros Hsel.
  - injection Hsel as <-. apply short_form. exact H.
  - apply long_form; assumption.
Qed.

Lemma reaches_payload_selector id_val epoch e p :
  reaches_payload id_val epoch e p ->
  epoch_selector epoch id_val = OK e /\ p = payload id_val.
Proof.
  unfold epoch_selector, payload. cbn zeta.
  intros [H | e' H Hint]; rewrite H; cbn [Nat.eqb]; auto.
Qed.

Lemma Forall_firstn_bytes n (b : bytes) : Forall is_byte b -> Forall is_byte (firstn n b).
Proof.
  intros H. apply Forall_forall. intros x Hx.
  rewrite Forall_forall in H. apply H.
  rewrite <- (firstn_skipn n b). apply in_or_app. left. exact Hx.
Qed.

(** The last step of both functions on a payload of 16 hexadecimal
    digits: 8 bytes, the first 5 of which are read back big-endian. *)
Lemma hex_payload_bytes p :
  length p = 16%nat -> hex_string p = true ->
  Py.fromhex p = OK (hex_pairs p) /\ length (hex_pairs p) = 8%nat /\
  Py.int (Py.hex (Py.drop_last 3 (hex_pairs p))) 16 = OK (time_component p).
Proof.
  intros Hlen Hhex.
  assert (Heven : Nat.even (length p) = true) by (rewrite Hlen; reflexivity).
  pose proof (hex_pairs_length_even p Heven) as H8.
  assert (Hlen8 : length (hex_pairs p) = 8%nat) by lia.
  split; [apply fromhex_hex_string; assumption |].
  split; [exact Hlen8 |].
  unfold Py.drop_last, time_component. rewrite Hlen8. cbn [Nat.sub].
  apply int_hex.
  - apply Forall_firstn_bytes, hex_pairs_bytes, Hhex.
  - intros Hnil. apply (f_equal (@length Z)) in Hnil.
    rewrite length_firstn, Hlen8 in Hnil. discriminate.
Qed.

Lemma time_component_range p : hex_string p = true -> 0 <= time_component p < 2 ^ 40.
Proof.
  intros Hhex. unfold time_component.
  pose proof (be_uint_bound (firstn 5 (hex_pairs p))
                (Forall_firstn_bytes 5 _ (hex_pairs_bytes _ Hhex))) as H.
  pose proof (firstn_le_length 5 (hex_pairs p)) as Hle.
  assert (256 ^ Z.of_nat (length (firstn 5 (hex_pairs p))) <= 256 ^ 5)
    by (apply Z.pow_le_mono_r; lia).
  change (2 ^ 40) with (256 ^ 5). lia.
Qed.

Lemma reaches_payload_epoch id_val e p :
  reaches_payload id_val 1 e p -> -9 <= e <= 99.
Proof.
  intros [H | e' H Hint]; [lia |].
  apply int_two_chars in Hint; [exact Hint |].
  rewrite length_firstn, H. reflexivity.
Qed.

Lemma unixms_hex_payload id_val epoch e p :
  reaches_payload id_val epoch e p -> hex_string p = true ->
  unixms id_val epoch = OK (time_component p + e * (2 ^ 40 - 1)).
Proof.
  intros Hp Hhex. pose proof (reaches_payload_length _ _ _ _ Hp) as Hlen.
  destruct (hex_payload_bytes p Hlen Hhex) as (Hfrom & H8 & Hint).
  apply unixms_run_sound.
  eapply unixms_return_46; try eassumption; lia.
Qed.

Lemma format_utc_ok ms :
  -9 * (2 ^ 40 - 1) <= ms < 100 * 2 ^ 40 ->
  format_utc ms =
  OK (Py.instant (Py.truediv (Py.float_of_int ms) (inject_Z 1000)), ms,
      Py.truediv (Py.float_of_int ms) (inject_Z 1000)).
Proof.
  intros H. unfold format_utc. cbn zeta.
  rewrite utcfromtimestamp_ms by exact H. reflexivity.
Qed.

(** The second script decodes like the first one called with its default
    epoch, then formats. *)
Lemma to_datetime_decode_format id_val :
  idtimestamp_to_datetime id_val = (v <- unixms id_val 1 ;; format_utc v).
Proof.
  unfold idtimestamp_to_datetime, unixms, format_utc. cbn zeta.
  destruct (negb _); [reflexivity |].
  destruct (_ =? 18)%nat.
  - destruct (Py.int _ 10) as [e | x]; [| reflexivity]. cbn [bind].
    destruct (negb _); [reflexivity |].
    destruct (Py.fromhex _) as [raw_bytes | x]; [| reflexivity]. cbn [bind].
    destruct (_ <? 3)%nat; [reflexivity |].
    destruct (Py.int _ 16) as [t | x]; cbn [bind]; reflexivity.
  - cbn [bind].
    destruct (negb _); [reflexivity |].
    destruct (Py.fromhex _) as [raw_bytes | x]; [| reflexivity]. cbn [bind].
    destruct (_ <? 3)%nat; [reflexivity |].
    destruct (Py.int _ 16) as [t | x]; cbn [bind]; reflexivity.
Qed.

(** Whatever the input, a decoded value lies between epoch -9 and the end
    of epoch 99: well inside the years a [datetime] can hold. *)
Lemma unixms_range id_val v :
  unixms id_val 1 = OK v -> -9 * (2 ^ 40 - 1) <= v < 100 * 2 ^ 40.
Proof.
  intros Hv. destruct (unixms_run_total id_val 1) as [o Hrun].
  pose proof (unixms_run_sound _ _ _ Hrun) as Ho. rewrite Hv in Ho. subst o.
  inversion Hrun as [| | | | | | | | e p raw raw' t Hp Hlen Hraw H3 Hraw' H3' Hint Heq].
  pose proof (reaches_payload_epoch _ _ _ Hp) as He.
  apply fromhex_bound in Hraw' as [Hlen' Hbytes]. rewrite Hlen in Hlen'.
  assert (Hdrop : Forall is_byte (Py.drop_last 3 raw'))
    by (apply Forall_firstn_bytes, Hbytes).
  assert (Hshort : (length (Py.drop_last 3 raw') <= 5)%nat).
  { unfold Py.drop_last. rewrite length_firstn. lia. }
  destruct (Py.drop_last 3 raw') as [| x b] eqn:Hb; [discriminate |].
  rewrite int_hex in Hint by (assumption || discriminate).
  injection Hint as <-.
  pose proof (be_uint_bound _ Hdrop) as Ht.
  assert (256 ^ Z.of_nat (length (x :: b)) <= 256 ^ 5)
    by (apply Z.pow_le_mono_r; lia).
  change (2 ^ 40) with 1099511627776 in *.
  change (256 ^ 5) with 1099511627776 in *. lia.
Qed.

Lemma decoded_in_datetime_range id_val v :
  unixms id_val 1 = OK v -> -9 * (2 ^ 40 - 1) <= v < 100 * 2 ^ 40.
Proof. apply unixms_range. Qed.

(** Both functions look at their input only through [strip_prefix]. *)
Lemma unixms_strip_prefix a b epoch :
  strip_prefix a = strip_prefix b -> unixms a epoch = unixms b epoch.
Proof.
  unfold strip_prefix, unixms. cbn zeta. intros ->. reflexivity.
Qed.

Lemma to_datetime_of_unixms id_val v :
  unixms id_val 1 = OK v ->
  idtimestamp_to_datetime id_val =
  OK (Py.instant (Py.truediv (Py.float_of_int v) (inject_Z 1000)), v,
      Py.truediv (Py.float_of_int v) (inject_Z 1000)).
Proof.
  intros H. rewrite to_datetime_decode_format, H. cbn [bind].
  apply format_utc_ok, (decoded_in_datetime_range id_val), H.
Qed.

Lemma hex_digit_not_x c : is_hex_digit c = true -> Ascii.eqb c "x" = false.
Proof. intros H. apply hex_digit_plain in H. tauto. Qed.


Lemma strip_prefix_0x (p : str) : strip_prefix (lit "0x" ++ p) = p.
Proof. unfold strip_prefix. simpl. reflexivity. Qed.

Lemma strip_prefix_hex_string p :
  hex_string p = true -> strip_prefix p = p.
Proof.
  intros H. unfold strip_prefix.
  destruct p as [| c1 [| c2 p]].
  - reflexivity.
  - simpl. rewrite andb_false_r. reflexivity.
  - unfold hex_string in H. simpl in H.
    apply andb_prop in H as [_ H]. apply andb_prop in H as [H2 _].
    simpl. rewrite (hex_digit_not_x _ H2), andb_false_r. reflexivity.
Qed.

Lemma int_raises s base x : Py.int s base = Raise x -> x = InvalidLiteral base s.
Proof.
  unfold Py.int. destruct (Py.long_from_string base (Py.transform s));
    [discriminate | congruence].
Qed.

(** * The claims *)

(** C1 (the code departs from it).  The claim: for every input that
    passes validation -- optional [0x] removed, 16 or 18 hexadecimal
    characters, a 16-character payload once the selector is removed -- the
    decoder returns the big-endian value of the first 5 payload bytes plus
    the selector times [2^40 - 1], the selector being the leading 2
    characters for an 18-character input.  The input [0a0000000000000000]
    passes every one of these checks, and neither function returns a
    value for it: the selector [0a] is handed to [int] without a base,
    which reads it in base 10 and raises. *)
Theorem hex_selector_no_value :
  let id_val := lit "0a0000000000000000" in
  length (strip_prefix id_val) = 18%nat /\
  hex_string (strip_prefix id_val) = true /\
  length (payload id_val) = 16%nat /\
  hex_string (payload id_val) = true /\
  time_component (payload id_val) = 0 /\
  unixms id_val 1 = Raise (InvalidLiteral 10 (lit "0a")) /\
  idtimestamp_to_datetime id_val = Raise (InvalidLiteral 10 (lit "0a")).
Proof. cbv zeta. repeat split; vm_compute; reflexivity. Qed.

(** X20.  For every input whose length, with an optional [0x] removed,
    is 16 or 18, whose 16-character payload is made of hexadecimal digits
    and whose selector [int] accepts (the selector is 1 for a
    16-character input), both decoders return the big-endian unsigned
    value of the first 5 of the 8 payload bytes plus
    [epoch_selector * (2^40 - 1)]. *)
Theorem decoded_value id_val sel :
  length (strip_prefix id_val) = 16%nat \/ length (strip_prefix id_val) = 18%nat ->
  hex_string (payload id_val) = true ->
  epoch_selector 1 id_val = OK sel ->
  Py.fromhex (payload id_val) = OK (hex_pairs (payload id_val)) /\
  length (hex_pairs (payload id_val)) = 8%nat /\
  unixms id_val 1 =
    OK (be_uint (firstn 5 (hex_pairs (payload id_val))) + sel * (2 ^ 40 - 1)) /\
  exists dt seconds,
    idtimestamp_to_datetime id_val =
    OK (dt, be_uint (firstn 5 (hex_pairs (payload id_val))) + sel * (2 ^ 40 - 1),
        seconds).
Proof.
  intros Hlen Hhex Hsel.
  pose proof (reaches_payload_intro _ _ _ Hlen Hsel) as Hp.
  pose proof (reaches_payload_length _ _ _ _ Hp) as H16.
  destruct (hex_payload_bytes _ H16 Hhex) as (Hfrom & H8 & _).
  pose proof (unixms_hex_payload _ _ _ _ Hp Hhex) as Hv.
  unfold time_component in Hv.
  repeat split; try assumption.
  rewrite (to_datetime_of_unixms _ _ Hv). eauto.
Qed.

Lemma decoded_value_witness :
  unixms (lit "0x019a3b5c7d8e9f0011") 1 = OK 1761932508557.
Proof.
  destruct (decoded_value (lit "0x019a3b5c7d8e9f0011") 1) as (_ & _ & H & _).
  - right. reflexivity.
  - reflexivity.
  - reflexivity.
  - exact H.
Defined.



(** C3 (the code departs from it).  The claim: an input made of
    hexadecimal digits only, of length 16 or 18 once [0x] is removed, is
    decoded without error.  On the 18 hexadecimal digits
    [ab0000000000000000] both functions raise: the selector [ab] is handed
    to [int] without a base, which reads it in base 10. *)
Theorem hex_selector_raises :
  let id_val := lit "ab0000000000000000" in
  hex_string id_val = true /\
  length (strip_prefix id_val) = 18%nat /\
  unixms id_val 1 = Raise (InvalidLiteral 10 (lit "ab")) /\
  idtimestamp_to_datetime id_val = Raise (InvalidLiteral 10 (lit "ab")).
Proof. cbv zeta. repeat split; vm_compute; reflexivity. Qed.

(** C4.  For every input whose length after removal of [0x] is neither
    16 nor 18, both decoders raise the invalid-length error, and its
    message ends with that length in decimal. *)
Theorem invalid_length id_val epoch :
  length (strip_prefix id_val) <> 16%nat ->
  length (strip_prefix id_val) <> 18%nat ->
  unixms id_val epoch = Raise (InvalidLength (length (strip_prefix id_val))) /\
  idtimestamp_to_datetime id_val
  = Raise (InvalidLength (length (strip_prefix id_val))) /\
  message (InvalidLength (length (strip_prefix id_val)))
  = Some (lit "idtimestamp must be 16 or 18 hex chars, got "
            ++ decimal (length (strip_prefix id_val))).
Proof.
  intros H16 H18. repeat split.
  - apply unixms_run_sound, unixms_raise_22; assumption.
  - apply to_datetime_run_sound, to_datetime_raise_22; assumption.
Qed.

Lemma invalid_length_witness :
  unixms [] 1 = Raise (InvalidLength 0) /\
  idtimestamp_to_datetime [] = Raise (InvalidLength 0) /\
  message (InvalidLength 0)
  = Some (lit "idtimestamp must be 16 or 18 hex chars, got 0").
Proof.
  apply (invalid_length [] 1); simpl; lia.
Defined.

(** C5.  For every string [p] of 16 hexadecimal digits, decoding [p] and
    decoding ["0x" + p] give the same result, and that result is a value,
    not an error. *)
Theorem prefix_insensitive p epoch :
  length p = 16%nat -> hex_string p = true ->
  unixms (lit "0x" ++ p) epoch = unixms p epoch /\
  idtimestamp_to_datetime (lit "0x" ++ p) = idtimestamp_to_datetime p /\
  exists v, unixms p epoch = OK v.
Proof.
  intros Hlen Hhex.
  assert (Hstrip : strip_prefix (lit "0x" ++ p) = strip_prefix p).
  { rewrite strip_prefix_0x, strip_prefix_hex_string; auto. }
  split; [apply unixms_strip_prefix, Hstrip |].
  split.
  - rewrite !to_datetime_decode_format.
    rewrite (unixms_strip_prefix _ _ 1 Hstrip). reflexivity.
  - eexists. apply unixms_hex_payload with (p := p); [| exact Hhex].
    rewrite <- (strip_prefix_hex_string p Hhex) at 2.
    apply short_form. rewrite strip_prefix_hex_string; assumption.
Qed.

Lemma prefix_insensitive_witness :
  unixms (lit "0x9a3b5c7d8e9f0011") 1 = unixms (lit "9a3b5c7d8e9f0011") 1.
Proof.
  apply (prefix_insensitive (lit "9a3b5c7d8e9f0011") 1); reflexivity.
Defined.

(** C6.  For every input that decodes, formatting leaves the decoded
    integer untouched: the formatter succeeds on the decoded value, the
    milliseconds component of its tuple is that value, and this tuple is
    what the decode-and-format function returns. *)
Theorem format_keeps_milliseconds id_val v :
  unixms id_val 1 = OK v ->
  exists t,
    format_utc v = OK t /\ milliseconds t = v /\
    idtimestamp_to_datetime id_val = OK t.
Proof.
  intros H. eexists. split; [| split].
  - apply format_utc_ok, (decoded_in_datetime_range id_val), H.
  - reflexivity.
  - apply to_datetime_of_unixms, H.
Qed.

Lemma format_keeps_milliseconds_witness :
  exists t,
    format_utc 1761932508557 = OK t /\ milliseconds t = 1761932508557 /\
    idtimestamp_to_datetime (lit "019a3b5c7d8e9f0011") = OK t.
Proof.
  apply (format_keeps_milliseconds (lit "019a3b5c7d8e9f0011") 1761932508557).
  reflexivity.
Defined.

(** C7 as stated fails: a payload that passed every earlier check reaches
    the too-short branch.  Sixteen blanks have length 16, [bytes.fromhex]
    skips them all and returns no byte, and both functions raise the
    too-short error. *)
Lemma too_short_reached :
  let id_val := lit "                " in
  length (strip_prefix id_val) = 16%nat /\
  Py.fromhex (payload id_val) = OK [] /\
  unixms id_val 1 = Raise TooShort /\
  idtimestamp_to_datetime id_val = Raise TooShort.
Proof. cbv zeta. repeat split; vm_compute; reflexivity. Qed.

(** C7, amended.  When the 16-character payload consists of hexadecimal
    digits, the decoded byte string has length 8 >= 3, and neither
    function raises the too-short error. *)
Theorem too_short_unreachable_on_hex id_val epoch :
  hex_string (payload id_val) = true ->
  (length (payload id_val) = 16%nat ->
   Py.fromhex (payload id_val) = OK (hex_pairs (payload id_val)) /\
   length (hex_pairs (payload id_val)) = 8%nat) /\
  unixms id_val epoch <> Raise TooShort /\
  idtimestamp_to_datetime id_val <> Raise TooShort.
Proof.
  intros Hhex.
  assert (Hunixms : forall e, unixms id_val e <> Raise TooShort).
  { intros e.
    destruct (reaches_payload_or_not id_val e)
      as [[H16 H18] | [[H18 [x Hx]] | (sel & p & Hp)]].
    - rewrite (unixms_run_sound _ _ _ (unixms_raise_22 _ _ H16 H18)). discriminate.
    - rewrite (unixms_run_sound _ _ _ (unixms_raise_25 _ _ _ H18 Hx)).
      apply int_raises in Hx. rewrite Hx. discriminate.
    - destruct (reaches_payload_selector _ _ _ _ Hp) as [_ ->].
      rewrite (unixms_hex_payload _ _ _ _ Hp Hhex). discriminate. }
  split; [| split].
  - intros Hlen. destruct (hex_payload_bytes _ Hlen Hhex) as (? & ? & _). auto.
  - apply Hunixms.
  - rewrite to_datetime_decode_format.
    destruct (unixms id_val 1) as [v | x] eqn:Hv; cbn [bind].
    + rewrite format_utc_ok by (apply (decoded_in_datetime_range id_val), Hv).
      discriminate.
    + intros [= ->]. apply (Hunixms 1). exact Hv.
Qed.

Lemma too_short_unreachable_on_hex_witness :
  unixms (lit "0x019a3b5c7d8e9f0011") 1 <> Raise TooShort.
Proof.
  apply (too_short_unreachable_on_hex (lit "0x019a3b5c7d8e9f0011") 1).
  reflexivity.
Defined.

(** C8.  Decoding [0000000000000000] succeeds with exactly 1099511627775:
    the time component is 0 and the default selector 1 contributes
    [1 * (2^40 - 1)]. *)
Theorem decode_zero :
  time_component (lit "0000000000000000") = 0 /\
  epoch_selector 1 (lit "0000000000000000") = OK 1 /\
  unixms (lit "0000000000000000") 1 = OK 1099511627775 /\
  exists dt seconds,
    idtimestamp_to_datetime (lit "0000000000000000")
    = OK (dt, 1099511627775, seconds).
Proof.
  repeat split; try (vm_compute; reflexivity).
  do 2 eexists. vm_compute. reflexivity.
Qed.

(** C10.  The two scripts agree on every input: when the decoder-only
    function, called with its default epoch 1, returns a value, the
    decode-and-format function returns a tuple whose milliseconds are that
    value; when one raises, the other raises the same error. *)
Theorem decoders_agree id_val :
  match unixms id_val 1, idtimestamp_to_datetime id_val with
  | OK v, OK t => milliseconds t = v
  | Raise x, Raise y => x = y
  | _, _ => False
  end.
Proof.
  destruct (unixms id_val 1) as [v | x] eqn:Hv.
  - rewrite (to_datetime_of_unixms _ _ Hv). reflexivity.
  - rewrite to_datetime_decode_format, Hv. reflexivity.
Qed.

(** * Further properties of the code *)

Example str_of_int_samples :
  str_of_int 0 = lit "0" /\ str_of_int (-5) = lit "-5" /\
  str_of_int 1099511627775 = lit "1099511627775".
Proof. repeat split; reflexivity. Qed.

(** ** How the two functions fail *)

Lemma first_non_ascii_bound s :
  forall pos, (pos <= Py.first_non_ascii pos s <= pos + length s)%nat.
Proof.
  induction s as [| c s IH]; intros pos; simpl; [lia |].
  destruct (Py.ord c <? 128); [| lia].
  specialize (IH (S pos)). lia.
Qed.

Lemma fromhex_loop_raises s :
  forall pos top x,
    Py.fromhex_loop pos top s = Raise x ->
    exists q, x = MalformedHex q /\ (pos <= q <= pos + length s)%nat.
Proof.
  induction s as [| c s IH]; intros pos top x H.
  - destruct top; simpl in H; [| discriminate].
    injection H as <-. exists pos. simpl. split; [reflexivity | lia].
  - assert (Hhere : exists q, MalformedHex pos = MalformedHex q /\
                              (pos <= q <= pos + length (c :: s))%nat)
      by (exists pos; simpl; split; [reflexivity | lia]).
    assert (Hnext : forall top', Py.fromhex_loop (S pos) top' s = Raise x ->
              exists q, x = MalformedHex q /\ (pos <= q <= pos + length (c :: s))%nat).
    { intros top' H'. apply IH in H' as (q & -> & Hq).
      exists q. simpl. split; [reflexivity | lia]. }
    destruct top as [t |]; cbn [Py.fromhex_loop] in H.
    + destruct (Py.digit_value c <? 16); [| injection H as <-; exact Hhere].
      destruct (Py.fromhex_loop (S pos) None s) as [bs |] eqn:Hrec;
        cbn [bind] in H; [discriminate |].
      injection H as <-. apply (Hnext None), Hrec.
    + destruct (Py.isspace c); [apply (Hnext None), H |].
      destruct (Py.digit_value c <? 16); [| injection H as <-; exact Hhere].
      eapply Hnext, H.
Qed.

Lemma fromhex_raises s x :
  Py.fromhex s = Raise x ->
  exists q, x = MalformedHex q /\ (q <= length s)%nat.
Proof.
  unfold Py.fromhex. destruct (Py.is_ascii s).
  - intros H. apply fromhex_loop_raises in H as (q & -> & Hq).
    exists q. split; [reflexivity | lia].
  - intros [= <-]. eexists. split; [reflexivity |].
    pose proof (first_non_ascii_bound s 0). lia.
Qed.

(** Every exception of [unixms], with the condition under which it is
    raised. *)
Lemma unixms_raises id_val epoch x :
  unixms id_val epoch = Raise x ->
  (x = InvalidLength (length (strip_prefix id_val)) /\
   length (strip_prefix id_val) <> 16%nat /\ length (strip_prefix id_val) <> 18%nat)
  \/ (x = InvalidLiteral 10 (firstn 2 (strip_prefix id_val)) /\
      length (strip_prefix id_val) = 18%nat)
  \/ (exists q, x = MalformedHex q /\ (q <= 16)%nat /\
                Py.fromhex (payload id_val) = Raise x)
  \/ (x = TooShort /\
      exists raw, Py.fromhex (payload id_val) = OK raw /\ (length raw < 3)%nat)
  \/ (x = InvalidLiteral 16 [] /\
      exists raw, Py.fromhex (payload id_val) = OK raw /\ length raw = 3%nat).
Proof.
  intros Hx. destruct (unixms_run_total id_val epoch) as [o Ho].
  pose proof (unixms_run_sound _ _ _ Ho) as Heq. rewrite Hx in Heq. subst o.
  inversion Ho as
    [ H16 H18
    | x' H18 Hint
    | e p Hp Hlen
    | e p x' Hp Hlen Hraw
    | e p raw Hp Hlen Hraw Hshort
    | e p raw x' Hp Hlen Hraw H3 Hraw'
    | e p raw raw' Hp Hlen Hraw H3 Hraw' Hshort
    | e p raw raw' x' Hp Hlen Hraw H3 Hraw' H3' Hint
    | ]; subst;
    try (destruct (reaches_payload_selector _ _ _ _ Hp) as [_ ->]).
  - left. auto.
  - right. left. apply int_raises in Hint. auto.
  - pose proof (reaches_payload_length _ _ _ _ Hp). contradiction.
  - right. right. left.
    destruct (fromhex_raises _ _ Hraw) as (q & -> & Hq).
    exists q. rewrite Hlen in Hq. auto.
  - right. right. right. left. eauto.
  - congruence.
  - right. right. right. left. eauto.
  - right. right. right. right.
    pose proof (fromhex_bound _ _ Hraw') as [_ Hbytes].
    destruct (Py.drop_last 3 raw') as [| b bs] eqn:Hdrop.
    + rewrite int_hex_nil in Hint. injection Hint as <-.
      split; [reflexivity |]. exists raw'. split; [exact Hraw' |].
      apply (f_equal (@length Z)) in Hdrop. unfold Py.drop_last in Hdrop.
      rewrite length_firstn in Hdrop. simpl in Hdrop. lia.
    + rewrite int_hex in Hint; [discriminate | | discriminate].
      rewrite <- Hdrop. apply Forall_firstn_bytes, Hbytes.
Qed.

(** The formatting lines add no failure: an exception of the second
    script is an exception of the decoder. *)
Lemma to_datetime_raises id_val x :
  idtimestamp_to_datetime id_val = Raise x -> unixms id_val 1 = Raise x.
Proof.
  rewrite to_datetime_decode_format.
  destruct (unixms id_val 1) as [v | y] eqn:Hv; cbn [bind].
  - rewrite format_utc_ok by (apply (decoded_in_datetime_range id_val), Hv).
    discriminate.
  - intros [= ->]. reflexivity.
Qed.

(** X1.  Every exception raised by either function is one of five, each
    under its own condition: the length error when the stripped length is
    neither 16 nor 18; [int]'s base-10 error on the 2-character selector
    of an 18-character input; [bytes.fromhex]'s error on the payload, at
    a position no greater than 16; the too-short error when the payload
    decodes to fewer than 3 bytes; and [int]'s base-16 error on the empty
    string when the payload decodes to exactly 3 bytes. *)
Theorem exceptions_raised id_val x :
  unixms id_val 1 = Raise x \/ idtimestamp_to_datetime id_val = Raise x ->
  (x = InvalidLength (length (strip_prefix id_val)) /\
   length (strip_prefix id_val) <> 16%nat /\ length (strip_prefix id_val) <> 18%nat)
  \/ (x = InvalidLiteral 10 (firstn 2 (strip_prefix id_val)) /\
      length (strip_prefix id_val) = 18%nat)
  \/ (exists q, x = MalformedHex q /\ (q <= 16)%nat /\
                Py.fromhex (payload id_val) = Raise x)
  \/ (x = TooShort /\
      exists raw, Py.fromhex (payload id_val) = OK raw /\ (length raw < 3)%nat)
  \/ (x = InvalidLiteral 16 [] /\
      exists raw, Py.fromhex (payload id_val) = OK raw /\ length raw = 3%nat).
Proof.
  intros [H | H]; [| apply to_datetime_raises in H];
    exact (unixms_raises _ _ _ H).
Qed.

Lemma exceptions_raised_witness :
  length (strip_prefix (lit "zz0000000000000000")) = 18%nat.
Proof.
  destruct (exceptions_raised (lit "zz0000000000000000") (InvalidLiteral 10 (lit "zz")))
    as [(H & _) | [(_ & H) | [(q & H & _) | [(H & _) | (H & _)]]]];
    try discriminate H.
  - left. reflexivity.
  - exact H.
Defined.

(** X2.  The check of the payload length after the selector is removed
    (lines 28-31, resp. 29-32) never fires: neither function ever raises
    its error, whatever the input and the number it would report. *)
Theorem payload_length_error_never_raised id_val epoch n :
  unixms id_val epoch <> Raise (InvalidPayloadLength n) /\
  idtimestamp_to_datetime id_val <> Raise (InvalidPayloadLength n).
Proof.
  assert (H : forall e, unixms id_val e <> Raise (InvalidPayloadLength n)).
  { intros e He. apply unixms_raises in He.
    destruct He as [(H & _) | [(H & _) | [(q & H & _) | [(H & _) | (H & _)]]]];
      discriminate H. }
  split; [apply H |]. intros Hd. apply to_datetime_raises in Hd. exact (H 1 Hd).
Qed.

(** X3.  [utcfromtimestamp] never fails inside [idtimestamp_to_datetime]:
    the out-of-range error is not among its exceptions. *)
Theorem out_of_range_never_raised id_val :
  idtimestamp_to_datetime id_val <> Raise OutOfRange.
Proof.
  intros H. apply to_datetime_raises, unixms_raises in H.
  destruct H as [(H & _) | [(H & _) | [(q & H & _) | [(H & _) | (H & _)]]]];
    discriminate H.
Qed.

(** X4.  A payload that decodes to exactly 3 bytes passes the too-short
    guard ([len(raw_bytes) < 3] is false) and leaves an empty time
    component: both functions then raise [int]'s error for the empty
    string in base 16. *)
Theorem three_byte_payload id_val sel raw :
  length (strip_prefix id_val) = 16%nat \/ length (strip_prefix id_val) = 18%nat ->
  epoch_selector 1 id_val = OK sel ->
  Py.fromhex (payload id_val) = OK raw -> length raw = 3%nat ->
  unixms id_val 1 = Raise (InvalidLiteral 16 []) /\
  idtimestamp_to_datetime id_val = Raise (InvalidLiteral 16 []).
Proof.
  intros Hlen Hsel Hraw H3.
  pose proof (reaches_payload_intro _ _ _ Hlen Hsel) as Hp.
  assert (Hint : Py.int (Py.hex (Py.drop_last 3 raw)) 16 = Raise (InvalidLiteral 16 [])).
  { unfold Py.drop_last. rewrite H3. reflexivity. }
  assert (Hu : unixms id_val 1 = Raise (InvalidLiteral 16 [])).
  { apply unixms_run_sound.
    eapply unixms_raise_45 with (raw_bytes := raw) (raw_bytes' := raw);
      try eassumption; try lia.
    eapply reaches_payload_length, Hp. }
  split; [exact Hu |].
  rewrite to_datetime_decode_format, Hu. reflexivity.
Qed.

Lemma three_byte_payload_witness :
  unixms (lit "aabbcc          ") 1 = Raise (InvalidLiteral 16 []) /\
  idtimestamp_to_datetime (lit "aabbcc          ") = Raise (InvalidLiteral 16 []).
Proof.
  apply (three_byte_payload (lit "aabbcc          ") 1 [170; 187; 204]);
    try reflexivity.
  left. reflexivity.
Defined.

(** ** What a returned value looks like *)

Lemma fromhex_loop_chars s :
  forall pos top bs,
    Py.fromhex_loop pos top s = OK bs ->
    forallb (fun c => is_hex_digit c || Py.isspace c) s = true.
Proof.
  induction s as [| c s IH]; intros pos top bs H; [reflexivity |].
  cbn [forallb]. destruct top as [t |]; cbn [Py.fromhex_loop] in H.
  - destruct (Py.digit_value c <? 16) eqn:Hd; [| discriminate].
    rewrite (digit_16_is_hex _ Hd). cbn [orb andb].
    destruct (Py.fromhex_loop (S pos) None s) as [bs' |] eqn:Hrec; [| discriminate].
    eapply IH, Hrec.
  - destruct (Py.isspace c) eqn:Hsp.
    + rewrite orb_true_r. cbn [andb]. eapply IH, H.
    + destruct (Py.digit_value c <? 16) eqn:Hd; [| discriminate].
      rewrite (digit_16_is_hex _ Hd). cbn [orb andb]. eapply IH, H.
Qed.

Lemma fromhex_chars s bs :
  Py.fromhex s = OK bs ->
  forallb (fun c => is_hex_digit c || Py.isspace c) s = true.
Proof.
  unfold Py.fromhex. destruct (Py.is_ascii s); [| discriminate].
  apply fromhex_loop_chars.
Qed.

(** A returned value comes from a payload that decoded to between 4 and 8
    bytes, all but the last 3 of which are read big-endian. *)
Lemma unixms_returns id_val epoch v :
  unixms id_val epoch = OK v ->
  exists e raw,
    reaches_payload id_val epoch e (payload id_val) /\
    Py.fromhex (payload id_val) = OK raw /\
    (4 <= length raw <= 8)%nat /\ Forall is_byte raw /\
    v = be_uint (Py.drop_last 3 raw) + e * (2 ^ 40 - 1).
Proof.
  intros Hv. destruct (unixms_run_total id_val epoch) as [o Ho].
  pose proof (unixms_run_sound _ _ _ Ho) as Heq. rewrite Hv in Heq. subst o.
  inversion Ho as [| | | | | | | | e p raw raw' t Hp Hlen Hraw H3 Hraw' H3' Hint Heq].
  destruct (reaches_payload_selector _ _ _ _ Hp) as [_ ->].
  pose proof (fromhex_bound _ _ Hraw') as [Hlen' Hbytes]. rewrite Hlen in Hlen'.
  assert (Hdrop : Forall is_byte (Py.drop_last 3 raw'))
    by (apply Forall_firstn_bytes, Hbytes).
  destruct (Py.drop_last 3 raw') as [| x b] eqn:Hb; [discriminate |].
  rewrite int_hex in Hint by (assumption || discriminate).
  injection Hint as <-.
  exists e, raw'. rewrite Hb. repeat split; try assumption; try lia.
  apply (f_equal (@length Z)) in Hb. unfold Py.drop_last in Hb.
  rewrite length_firstn in Hb. simpl in Hb. lia.
Qed.

Lemma drop_last_value_range raw :
  (length raw <= 8)%nat -> Forall is_byte raw ->
  0 <= be_uint (Py.drop_last 3 raw) <= 2 ^ 40 - 1.
Proof.
  intros Hlen Hbytes.
  pose proof (be_uint_bound _ (Forall_firstn_bytes (length raw - 3) _ Hbytes)) as H.
  fold (Py.drop_last 3 raw) in H.
  assert (Hshort : (length (Py.drop_last 3 raw) <= 5)%nat).
  { unfold Py.drop_last. rewrite length_firstn. lia. }
  assert (256 ^ Z.of_nat (length (Py.drop_last 3 raw)) <= 256 ^ 5)
    by (apply Z.pow_le_mono_r; lia).
  change (2 ^ 40) with 1099511627776.
  change (256 ^ 5) with 1099511627776 in *. lia.
Qed.

(** X5.  Whatever the input, a value returned with the default epoch lies
    between [-9 * (2^40 - 1)] and [100 * (2^40 - 1)]; both ends are
    returned, for the selectors [-9] and [99].  The decoder can return
    negative numbers. *)
Theorem decoded_range id_val v :
  unixms id_val 1 = OK v ->
  -9 * (2 ^ 40 - 1) <= v <= 100 * (2 ^ 40 - 1) /\
  unixms (lit "-90000000000000000") 1 = OK (-9 * (2 ^ 40 - 1)) /\
  unixms (lit "99ffffffffff000000") 1 = OK (100 * (2 ^ 40 - 1)).
Proof.
  intros Hv. split; [| split; reflexivity].
  apply unixms_returns in Hv as (e & raw & Hp & _ & Hlen & Hbytes & ->).
  apply reaches_payload_epoch in Hp.
  pose proof (drop_last_value_range raw ltac:(lia) Hbytes).
  change (2 ^ 40) with 1099511627776 in *. lia.
Qed.

Lemma decoded_range_witness :
  -9 * (2 ^ 40 - 1) <= 1761932508557 <= 100 * (2 ^ 40 - 1).
Proof.
  apply (decoded_range (lit "0x019a3b5c7d8e9f0011") 1761932508557).
  reflexivity.
Defined.

(** X6.  An input of the 16-character form, decoded with the default
    epoch, can only give a value from [2^40 - 1] to [2^41 - 2]: the
    instants of epoch 1. *)
Theorem short_form_range id_val v :
  length (strip_prefix id_val) = 16%nat ->
  unixms id_val 1 = OK v ->
  2 ^ 40 - 1 <= v <= 2 ^ 41 - 2.
Proof.
  intros H16 Hv.
  apply unixms_returns in Hv as (e & raw & Hp & _ & Hlen & Hbytes & ->).
  apply reaches_payload_selector in Hp as [Hsel _].
  unfold epoch_selector in Hsel. cbn zeta in Hsel. rewrite H16 in Hsel.
  cbn [Nat.eqb] in Hsel. injection Hsel as <-.
  pose proof (drop_last_value_range raw ltac:(lia) Hbytes).
  change (2 ^ 40) with 1099511627776 in *.
  change (2 ^ 41) with 2199023255552. lia.
Qed.

Lemma short_form_range_witness :
  2 ^ 40 - 1 <= 1099511627775 <= 2 ^ 41 - 2.
Proof.
  apply (short_form_range (lit "0000000000000000") 1099511627775); reflexivity.
Defined.

(** X7.  A value is returned only for a payload made of hexadecimal
    digits and ASCII white space that decodes to at least 4 and at most 8
    bytes; the value is then the big-endian number of all but the last 3
    of these bytes plus the selector times [2^40 - 1]. *)
Theorem returned_value_shape id_val epoch v :
  unixms id_val epoch = OK v ->
  forallb (fun c => is_hex_digit c || Py.isspace c) (payload id_val) = true /\
  exists sel raw,
    epoch_selector epoch id_val = OK sel /\
    Py.fromhex (payload id_val) = OK raw /\
    (4 <= length raw <= 8)%nat /\
    v = be_uint (Py.drop_last 3 raw) + sel * (2 ^ 40 - 1).
Proof.
  intros Hv.
  apply unixms_returns in Hv as (e & raw & Hp & Hraw & Hlen & _ & ->).
  split; [eapply fromhex_chars, Hraw |].
  exists e, raw. apply reaches_payload_selector in Hp as [Hsel _]. auto.
Qed.

Lemma returned_value_shape_witness :
  forallb (fun c => is_hex_digit c || Py.isspace c)
    (payload (lit "aabbccdd        ")) = true.
Proof.
  apply (returned_value_shape (lit "aabbccdd        ") 1 1099511627945).
  reflexivity.
Defined.

(** X8.  The [epoch] argument of [unixms] is used by the 16-character
    form only.  For any other input the result does not depend on it; for
    the 16-character form a returned value moves by the difference of the
    epochs times [2^40 - 1]. *)
Theorem epoch_argument id_val e1 e2 :
  (length (strip_prefix id_val) <> 16%nat -> unixms id_val e1 = unixms id_val e2) /\
  (forall v, length (strip_prefix id_val) = 16%nat ->
     unixms id_val e1 = OK v ->
     unixms id_val e2 = OK (v + (e2 - e1) * (2 ^ 40 - 1))).
Proof.
  split.
  - intros H16. unfold unixms. fold (strip_prefix id_val).
    set (s := strip_prefix id_val) in *. cbv zeta.
    destruct (Nat.eq_dec (length s) 18) as [H18 | H18].
    + rewrite H18. reflexivity.
    + cbn [existsb].
      destruct (Nat.eqb_spec (length s) 16); [contradiction |].
      destruct (Nat.eqb_spec (length s) 18); [contradiction |].
      reflexivity.
  - intros v H16 Hv.
    apply unixms_returns in Hv as (e & raw & Hp & Hraw & Hlen & Hbytes & ->).
    destruct (reaches_payload_selector _ _ _ _ Hp) as [Hsel Hpay].
    unfold epoch_selector in Hsel. cbn zeta in Hsel. rewrite H16 in Hsel.
    cbn [Nat.eqb] in Hsel. injection Hsel as <-.
    assert (Hp2 : reaches_payload id_val e2 e2 (payload id_val)).
    { unfold payload. cbn zeta. rewrite H16. cbn [Nat.eqb].
      apply short_form, H16. }
    assert (Hne : Py.drop_last 3 raw <> []).
    { intros Hnil. apply (f_equal (@length Z)) in Hnil. unfold Py.drop_last in Hnil.
      rewrite length_firstn in Hnil. simpl in Hnil. lia. }
    replace (be_uint (Py.drop_last 3 raw) + e1 * (2 ^ 40 - 1) + (e2 - e1) * (2 ^ 40 - 1))
      with (be_uint (Py.drop_last 3 raw) + e2 * (2 ^ 40 - 1)) by lia.
    apply unixms_run_sound.
    eapply unixms_return_46 with (raw_bytes := raw) (raw_bytes' := raw);
      try eassumption; try lia.
    + eapply reaches_payload_length, Hp2.
    + apply int_hex; [apply Forall_firstn_bytes, Hbytes | exact Hne].
Qed.

Lemma epoch_argument_witness :
  unixms (lit "0000000000000000") 3 = OK (1099511627775 + (3 - 1) * (2 ^ 40 - 1)).
Proof.
  apply (proj2 (epoch_argument (lit "0000000000000000") 1 3)); reflexivity.
Defined.

(** ** Sixteen hexadecimal digits *)

Lemma unixms_short_hex p epoch :
  length p = 16%nat -> hex_string p = true ->
  unixms p epoch = OK (time_component p + epoch * (2 ^ 40 - 1)).
Proof.
  intros Hlen Hhex. apply unixms_hex_payload; [| exact Hhex].
  rewrite <- (strip_prefix_hex_string p Hhex) at 2.
  apply short_form. rewrite strip_prefix_hex_string; assumption.
Qed.

Lemma to_datetime_same id1 id2 :
  unixms id1 1 = unixms id2 1 ->
  idtimestamp_to_datetime id1 = idtimestamp_to_datetime id2.
Proof. intros H. rewrite !to_datetime_decode_format, H. reflexivity. Qed.

Lemma hex_pairs_firstn (s : str) :
  forall k, firstn k (hex_pairs s) = hex_pairs (firstn (2 * k) s).
Proof.
  induction s as [| a | a b s IH] using pair_induction; intros k.
  - rewrite !firstn_nil. reflexivity.
  - destruct k; [reflexivity |]. cbn [hex_pairs]. rewrite firstn_nil.
    replace (2 * S k)%nat with (S (S (2 * k))) by lia. reflexivity.
  - destruct k; [reflexivity |].
    replace (2 * S k)%nat with (S (S (2 * k))) by lia.
    cbn [hex_pairs firstn]. f_equal. apply IH.
Qed.

(** X9.  The last 6 of the 16 hexadecimal digits (the 3 sequence and
    generator bytes) never reach the result: two such inputs with the
    same first 10 digits decode alike, by both functions. *)
Theorem trailing_digits_ignored p q epoch :
  length p = 16%nat -> hex_string p = true ->
  length q = 16%nat -> hex_string q = true ->
  firstn 10 p = firstn 10 q ->
  unixms p epoch = unixms q epoch /\
  idtimestamp_to_datetime p = idtimestamp_to_datetime q.
Proof.
  intros Hp Hhp Hq Hhq Heq.
  assert (Htc : time_component p = time_component q).
  { unfold time_component. rewrite !hex_pairs_firstn.
    change (2 * 5)%nat with 10%nat. rewrite Heq. reflexivity. }
  assert (H : forall e, unixms p e = unixms q e).
  { intros e. rewrite !unixms_short_hex by assumption. rewrite Htc. reflexivity. }
  split; [apply H | apply to_datetime_same, H].
Qed.

Lemma trailing_digits_ignored_witness :
  unixms (lit "9a3b5c7d8e9f0011") 1 = unixms (lit "9a3b5c7d8e000000") 1.
Proof.
  apply (trailing_digits_ignored (lit "9a3b5c7d8e9f0011") (lit "9a3b5c7d8e000000") 1);
    reflexivity.
Defined.

Lemma to_lower_digit_value c : Py.digit_value (to_lower c) = Py.digit_value c.
Proof. each_char c. Qed.

Lemma to_lower_hex_digit c : is_hex_digit (to_lower c) = is_hex_digit c.
Proof. each_char c. Qed.

Lemma hex_pairs_to_lower (s : str) : hex_pairs (map to_lower s) = hex_pairs s.
Proof.
  induction s as [| a | a b s IH] using pair_induction; try reflexivity.
  cbn [map hex_pairs]. rewrite !to_lower_digit_value, IH. reflexivity.
Qed.

(** X10.  The hexadecimal digits are read without regard to case: an
    input of 16 hexadecimal digits and its lower-case form decode alike. *)
Theorem case_insensitive p epoch :
  length p = 16%nat -> hex_string p = true ->
  unixms (map to_lower p) epoch = unixms p epoch /\
  idtimestamp_to_datetime (map to_lower p) = idtimestamp_to_datetime p.
Proof.
  intros Hp Hhex.
  assert (Hhex' : hex_string (map to_lower p) = true).
  { unfold hex_string in *. rewrite forallb_forall in *.
    intros c Hc. apply in_map_iff in Hc as (c' & <- & Hc').
    rewrite to_lower_hex_digit. auto. }
  assert (H : forall e, unixms (map to_lower p) e = unixms p e).
  { intros e. rewrite !unixms_short_hex by (rewrite ?length_map; assumption).
    unfold time_component. rewrite hex_pairs_to_lower. reflexivity. }
  split; [apply H | apply to_datetime_same, H].
Qed.

Lemma case_insensitive_witness :
  unixms (lit "9a3b5c7d8e9f0011") 1 = unixms (lit "9A3B5C7D8E9F0011") 1.
Proof.
  apply (case_insensitive (lit "9A3B5C7D8E9F0011") 1); reflexivity.
Defined.

Lemma hex_pairs_hex b : Forall is_byte b -> hex_pairs (Py.hex b) = b.
Proof.
  induction 1 as [| x b Hx _ IH]; [reflexivity |].
  pose proof (byte_nibbles _ Hx) as (Hhi & Hlo & Hsplit).
  cbn [Py.hex hex_pairs]. rewrite !hex_digit_value by assumption.
  rewrite IH. f_equal. lia.
Qed.

Lemma hex_length b : length (Py.hex b) = (2 * length b)%nat.
Proof. induction b as [| x b IH]; simpl in *; lia. Qed.

(** X11.  Decoding inverts the hexadecimal rendering of an identifier:
    for every 8 bytes [b], the string [b.hex()] decodes to the big-endian
    value of the first 5 bytes of [b] plus [epoch * (2^40 - 1)]. *)
Theorem decode_hex_rendering b epoch :
  length b = 8%nat -> Forall is_byte b ->
  unixms (Py.hex b) epoch = OK (be_uint (firstn 5 b) + epoch * (2 ^ 40 - 1)) /\
  exists dt seconds,
    idtimestamp_to_datetime (Py.hex b)
    = OK (dt, be_uint (firstn 5 b) + 1 * (2 ^ 40 - 1), seconds).
Proof.
  intros Hlen Hbytes.
  assert (H : forall e, unixms (Py.hex b) e
                        = OK (be_uint (firstn 5 b) + e * (2 ^ 40 - 1))).
  { intros e. rewrite unixms_short_hex.
    - unfold time_component. rewrite hex_pairs_hex by assumption. reflexivity.
    - rewrite hex_length, Hlen. reflexivity.
    - apply hex_is_hex_string, Hbytes. }
  split; [apply H |].
  rewrite (to_datetime_of_unixms _ _ (H 1)). eauto.
Qed.

Lemma decode_hex_rendering_witness :
  unixms (Py.hex [154; 59; 92; 125; 142; 159; 0; 17]) 1 = OK 1761932508557.
Proof.
  apply (decode_hex_rendering [154; 59; 92; 125; 142; 159; 0; 17] 1).
  - reflexivity.
  - repeat constructor; unfold is_byte; lia.
Defined.

(** ** Prefixes and selectors *)

Lemma selector_rejected id_val epoch x :
  length (strip_prefix id_val) = 18%nat ->
  Py.int (firstn 2 (strip_prefix id_val)) 10 = Raise x ->
  unixms id_val epoch = Raise x /\ idtimestamp_to_datetime id_val = Raise x.
Proof.
  intros H18 Hint.
  assert (H : forall e, unixms id_val e = Raise x)
    by (intros e; apply unixms_run_sound, unixms_raise_25; assumption).
  split; [apply H |]. rewrite to_datetime_decode_format, (H 1). reflexivity.
Qed.

(** X12.  Only one lower-case [0x] is removed.  In front of 16
    characters, an upper-case [0X] or a second [0x] stays, is taken for the
    selector of an 18-character input, and is rejected by [int]. *)
Theorem other_prefixes_rejected (p : str) epoch :
  length p = 16%nat ->
  unixms (lit "0X" ++ p) epoch = Raise (InvalidLiteral 10 (lit "0X")) /\
  idtimestamp_to_datetime (lit "0X" ++ p) = Raise (InvalidLiteral 10 (lit "0X")) /\
  unixms (lit "0x0x" ++ p) epoch = Raise (InvalidLiteral 10 (lit "0x")) /\
  idtimestamp_to_datetime (lit "0x0x" ++ p) = Raise (InvalidLiteral 10 (lit "0x")).
Proof.
  intros Hlen.
  assert (H1 : strip_prefix (lit "0X" ++ p) = lit "0X" ++ p) by reflexivity.
  assert (H2 : strip_prefix (lit "0x0x" ++ p) = lit "0x" ++ p) by reflexivity.
  destruct (selector_rejected (lit "0X" ++ p) epoch (InvalidLiteral 10 (lit "0X")))
    as [Ha Hb].
  { rewrite H1. simpl. rewrite Hlen. reflexivity. }
  { rewrite H1. reflexivity. }
  destruct (selector_rejected (lit "0x0x" ++ p) epoch (InvalidLiteral 10 (lit "0x")))
    as [Hc Hd].
  { rewrite H2. simpl. rewrite Hlen. reflexivity. }
  { rewrite H2. reflexivity. }
  auto.
Qed.

Lemma other_prefixes_rejected_witness :
  unixms (lit "0X0000000000000000") 1 = Raise (InvalidLiteral 10 (lit "0X")).
Proof.
  apply (other_prefixes_rejected (lit "0000000000000000") 1). reflexivity.
Defined.

Lemma int_minus_digit d :
  is_decimal_digit d = true ->
  Py.int ["-"%char; d] 10 = OK (- (Py.ord d - 48)).
Proof. each_char d. Qed.

Lemma decimal_digit_positive d :
  is_decimal_digit d = true -> d <> "0"%char -> 1 <= Py.ord d - 48.
Proof.
  destruct d as [[] [] [] [] [] [] [] []]; intros Hd Hne;
    try discriminate Hd; try (exfalso; apply Hne; reflexivity);
    vm_compute; discriminate.
Qed.

(** X13.  A selector made of a minus sign and a decimal digit is
    accepted: the input [-d] followed by 16 hexadecimal digits decodes to
    the time component minus [d * (2^40 - 1)], which is never positive
    unless [d] is 0. *)
Theorem negative_selector d (p : str) epoch :
  is_decimal_digit d = true -> length p = 16%nat -> hex_string p = true ->
  unixms ("-"%char :: d :: p) epoch
  = OK (time_component p - (Py.ord d - 48) * (2 ^ 40 - 1)) /\
  (exists dt seconds,
     idtimestamp_to_datetime ("-"%char :: d :: p)
     = OK (dt, time_component p - (Py.ord d - 48) * (2 ^ 40 - 1), seconds)) /\
  (d <> "0"%char -> time_component p - (Py.ord d - 48) * (2 ^ 40 - 1) <= 0).
Proof.
  intros Hd Hlen Hhex.
  assert (Hstrip : strip_prefix ("-"%char :: d :: p) = "-"%char :: d :: p)
    by reflexivity.
  assert (Hp : forall e, reaches_payload ("-"%char :: d :: p) e (- (Py.ord d - 48)) p).
  { intros e. change p with (skipn 2 ("-"%char :: d :: p)) at 2.
    rewrite <- Hstrip at 2. apply long_form.
    - rewrite Hstrip. simpl. rewrite Hlen. reflexivity.
    - rewrite Hstrip. apply int_minus_digit, Hd. }
  assert (H : forall e, unixms ("-"%char :: d :: p) e
                        = OK (time_component p - (Py.ord d - 48) * (2 ^ 40 - 1))).
  { intros e. rewrite (unixms_hex_payload _ _ _ _ (Hp e) Hhex). f_equal. lia. }
  split; [apply H |]. split.
  - rewrite (to_datetime_of_unixms _ _ (H 1)). eauto.
  - intros Hne. pose proof (time_component_range p Hhex) as Ht.
    pose proof (decimal_digit_positive d Hd Hne).
    change (2 ^ 40) with 1099511627776 in *. nia.
Qed.

Lemma negative_selector_witness :
  unixms (lit "-10000000000000000") 1 = OK (- (2 ^ 40 - 1)).
Proof.
  apply (negative_selector "1"%char (lit "0000000000000000") 1); reflexivity.
Defined.

(** ** Payloads with white space *)

Lemma fromhex_loop_blanks n :
  forall pos, Py.fromhex_loop pos None (repeat " "%char n) = OK [].
Proof. induction n as [| n IH]; intros pos; [reflexivity | apply IH]. Qed.

Lemma fromhex_loop_app_hex (h : str) :
  hex_string h = true -> Nat.even (length h) = true ->
  forall s bs pos,
    (forall pos', Py.fromhex_loop pos' None s = OK bs) ->
    Py.fromhex_loop pos None (h ++ s) = OK (hex_pairs h ++ bs).
Proof.
  induction h as [| a | a b h IH] using pair_induction; intros Hhex Heven s bs pos Hs.
  - apply Hs.
  - discriminate.
  - unfold hex_string in Hhex. simpl in Hhex.
    apply andb_prop in Hhex as [Ha Hhex]. apply andb_prop in Hhex as [Hb Hhex].
    cbn [app]. rewrite fromhex_loop_pair by assumption.
    rewrite (IH Hhex Heven s bs) by exact Hs. reflexivity.
Qed.

(** X14.  White space after the digits is accepted and shortens the
    payload: 8, 10, 12, 14 or 16 hexadecimal digits padded with blanks to
    16 characters decode without error, and the value is the big-endian
    number of all the bytes written but the last 3, plus
    [epoch * (2^40 - 1)]. *)
Theorem blank_padded_payload (h : str) epoch :
  hex_string h = true -> Nat.even (length h) = true ->
  (8 <= length h <= 16)%nat ->
  unixms (h ++ repeat " "%char (16 - length h)) epoch
  = OK (be_uint (Py.drop_last 3 (hex_pairs h)) + epoch * (2 ^ 40 - 1)) /\
  exists dt seconds,
    idtimestamp_to_datetime (h ++ repeat " "%char (16 - length h))
    = OK (dt, be_uint (Py.drop_last 3 (hex_pairs h)) + 1 * (2 ^ 40 - 1), seconds).
Proof.
  intros Hhex Heven Hlen.
  set (id_val := h ++ repeat " "%char (16 - length h)).
  assert (Hstrip : strip_prefix id_val = id_val).
  { unfold id_val, strip_prefix.
    destruct h as [| c1 [| c2 h]]; try (simpl in Hlen; lia).
    unfold hex_string in Hhex. simpl in Hhex.
    apply andb_prop in Hhex as [_ Hhex]. apply andb_prop in Hhex as [H2 _].
    simpl. rewrite (hex_digit_not_x _ H2), andb_false_r. reflexivity. }
  assert (H16 : length id_val = 16%nat)
    by (unfold id_val; rewrite length_app, repeat_length; lia).
  assert (Hascii : Py.is_ascii id_val = true).
  { unfold id_val, Py.is_ascii. rewrite forallb_app.
    fold (Py.is_ascii h). rewrite (hex_string_is_ascii _ Hhex). cbn [andb].
    apply forallb_forall. intros c Hc. apply repeat_spec in Hc. subst c.
    reflexivity. }
  assert (Hraw : Py.fromhex id_val = OK (hex_pairs h)).
  { unfold Py.fromhex. rewrite Hascii. unfold id_val.
    rewrite (fromhex_loop_app_hex h Hhex Heven _ []).
    - rewrite app_nil_r. reflexivity.
    - intros pos'. apply fromhex_loop_blanks. }
  pose proof (hex_pairs_length_even h Heven) as Hpairs.
  assert (Hne : Py.drop_last 3 (hex_pairs h) <> []).
  { intros Hnil. apply (f_equal (@length Z)) in Hnil. unfold Py.drop_last in Hnil.
    rewrite length_firstn in Hnil. simpl in Hnil. lia. }
  assert (H : forall e, unixms id_val e
              = OK (be_uint (Py.drop_last 3 (hex_pairs h)) + e * (2 ^ 40 - 1))).
  { intros e. apply unixms_run_sound.
    eapply unixms_return_46 with (p := id_val) (raw_bytes := hex_pairs h)
                                 (raw_bytes' := hex_pairs h);
      try eassumption; try lia.
    - rewrite <- Hstrip at 2. apply short_form. rewrite Hstrip. exact H16.
    - apply int_hex; [| exact Hne].
      apply Forall_firstn_bytes, hex_pairs_bytes, Hhex. }
  split; [apply H |].
  rewrite (to_datetime_of_unixms _ _ (H 1)). eauto.
Qed.

Lemma blank_padded_payload_witness :
  unixms (lit "aabbccdd        ") 1 = OK (170 + 1 * (2 ^ 40 - 1)).
Proof.
  apply (blank_padded_payload (lit "aabbccdd") 1); try reflexivity.
  simpl. lia.
Defined.

(** ** The command line of [idtimestamp_to_utc.py] *)

Section ToUtcCommandProofs.

Variable repr : str -> str.
Variable runtime_text : ValueError -> str.
Variable format_3f : Q -> str.
Variable strftime : Py.datetime -> str -> str.

Let main := to_utc_main repr runtime_text format_3f strftime.

(** X15.  The exit status never reports a failed conversion.  Without an
    argument the script prints its usage line on standard error and exits
    with 1; with an argument it exits with 0 and leaves standard error
    empty, printing three lines when the conversion succeeds and one line
    when it fails. *)
Theorem to_utc_exit_status argv :
  ((length argv < 2)%nat ->
   main argv = {| stdout := [];
                  stderr := [lit "Usage: idtimestamp_to_utc.py <idtimestamp_hex>"];
                  status := 1 |}) /\
  ((2 <= length argv)%nat ->
   status (main argv) = 0 /\ stderr (main argv) = [] /\
   ((exists t, idtimestamp_to_datetime (nth 1 argv []) = OK t) ->
    length (stdout (main argv)) = 3%nat) /\
   ((exists x, idtimestamp_to_datetime (nth 1 argv []) = Raise x) ->
    length (stdout (main argv)) = 1%nat)).
Proof.
  unfold main, to_utc_main. split; intros Hlen.
  - destruct (Nat.ltb_spec (length argv) 2); [reflexivity | lia].
  - destruct (Nat.ltb_spec (length argv) 2); [lia |]. cbv zeta.
    destruct (idtimestamp_to_datetime (nth 1 argv [])) as [[[dt ms] secs] | x];
      repeat split; try reflexivity; intros [y Hy]; discriminate.
Qed.

(** X16.  Given an argument whose payload is made of hexadecimal digits
    and whose selector [int] accepts, the script prints three lines on
    standard output, the first of which is
    [Last idtimestamp as Unix ms: ] followed by the decimal rendering of
    the time component plus the selector times [2^40 - 1]; further
    arguments are ignored. *)
Theorem to_utc_prints_value prog id_hex rest sel :
  length (strip_prefix id_hex) = 16%nat \/ length (strip_prefix id_hex) = 18%nat ->
  hex_string (payload id_hex) = true ->
  epoch_selector 1 id_hex = OK sel ->
  exists dt seconds,
    main (prog :: id_hex :: rest) =
    {| stdout :=
         [lit "Last idtimestamp as Unix ms: "
            ++ str_of_int (time_component (payload id_hex) + sel * (2 ^ 40 - 1));
          lit "Last idtimestamp as Unix seconds: " ++ format_3f seconds;
          lit "Last idtimestamp as UTC: "
            ++ strftime dt (lit "%Y-%m-%dT%H:%M:%S.%fZ")];
       stderr := [];
       status := 0 |}.
Proof.
  intros Hlen Hhex Hsel.
  pose proof (reaches_payload_intro _ _ _ Hlen Hsel) as Hp.
  pose proof (unixms_hex_payload _ _ _ _ Hp Hhex) as Hv.
  unfold main, to_utc_main. cbn [length Nat.ltb Nat.leb nth]. cbv zeta.
  rewrite (to_datetime_of_unixms _ _ Hv). do 2 eexists. reflexivity.
Qed.

(** X17.  Given an argument whose length, once a leading [0x] is removed,
    is neither 16 nor 18, the script prints exactly one line on standard
    output -- [Failed to convert idtimestamp ], the [repr] of the
    argument, a colon, and the length message with the observed length --
    and exits with status 0. *)
Theorem to_utc_reports_length prog id_hex rest :
  length (strip_prefix id_hex) <> 16%nat ->
  length (strip_prefix id_hex) <> 18%nat ->
  main (prog :: id_hex :: rest) =
  {| stdout :=
       [lit "Failed to convert idtimestamp " ++ repr id_hex ++ lit ": "
          ++ lit "idtimestamp must be 16 or 18 hex chars, got "
          ++ decimal (length (strip_prefix id_hex))];
     stderr := [];
     status := 0 |}.
Proof.
  intros H16 H18.
  unfold main, to_utc_main. cbn [length Nat.ltb Nat.leb nth]. cbv zeta.
  rewrite (to_datetime_run_sound _ _ (to_datetime_raise_22 _ H16 H18)).
  reflexivity.
Qed.

End ToUtcCommandProofs.

Lemma to_utc_exit_status_witness :
  status (to_utc_main (fun s => s) (fun _ => []) (fun _ => []) (fun _ _ => [])
            [lit "idtimestamp_to_utc.py"; lit "zz"]) = 0.
Proof.
  apply (to_utc_exit_status (fun s => s) (fun _ => []) (fun _ => []) (fun _ _ => [])
           [lit "idtimestamp_to_utc.py"; lit "zz"]).
  simpl. lia.
Defined.

Lemma to_utc_prints_value_witness :
  exists (dt : Py.datetime) (seconds : Q),
    to_utc_main (fun s => s) (fun _ => []) (fun _ => []) (fun _ _ => [])
      [lit "idtimestamp_to_utc.py"; lit "0x019a3b5c7d8e9f0011"] =
    {| stdout :=
         [lit "Last idtimestamp as Unix ms: 1761932508557";
          lit "Last idtimestamp as Unix seconds: ";
          lit "Last idtimestamp as UTC: "];
       stderr := [];
       status := 0 |}.
Proof.
  apply (to_utc_prints_value (fun s => s) (fun _ => []) (fun _ => []) (fun _ _ => [])
           (lit "idtimestamp_to_utc.py") (lit "0x019a3b5c7d8e9f0011") [] 1).
  - right. reflexivity.
  - reflexivity.
  - reflexivity.
Defined.

Lemma to_utc_reports_length_witness :
  to_utc_main (fun s => s) (fun _ => []) (fun _ => []) (fun _ _ => [])
    [lit "idtimestamp_to_utc.py"; lit "abc"] =
  {| stdout :=
       [lit "Failed to convert idtimestamp abc: idtimestamp must be 16 or 18 hex chars, got 3"];
     stderr := [];
     status := 0 |}.
Proof.
  apply (to_utc_reports_length (fun s => s) (fun _ => []) (fun _ => []) (fun _ _ => [])
           (lit "idtimestamp_to_utc.py") (lit "abc") []); simpl; lia.
Defined.

(** ** The command line of [idtimestamp-unixms.py] *)

Section UnixmsCommandProofs.

Variable repeat_fails : str -> Z -> option repeat_failure.

(** Called with an int, the function of either type is [unixms]. *)
Lemma unixms_dyn_int id_val e :
  unixms_dyn repeat_fails id_val (PyInt e) = lift (unixms id_val e).
Proof.
  unfold unixms_dyn, unixms. cbv zeta.
  destruct (negb _); [reflexivity |].
  destruct (_ =? 18)%nat.
  - destruct (Py.int _ 10) as [sel | x]; [| reflexivity].
    cbn [lift bind bind_outcome].
    destruct (negb _); [reflexivity |].
    destruct (Py.fromhex _) as [raw_bytes | x]; [| reflexivity].
    cbn [lift bind bind_outcome].
    destruct (_ <? 3)%nat; [reflexivity |].
    destruct (Py.int _ 16) as [t | x]; reflexivity.
  - cbn [lift bind bind_outcome].
    destruct (negb _); [reflexivity |].
    destruct (Py.fromhex _) as [raw_bytes | x]; [| reflexivity].
    cbn [lift bind bind_outcome].
    destruct (_ <? 3)%nat; [reflexivity |].
    destruct (Py.int _ 16) as [t | x]; reflexivity.
Qed.

(** With a [str] for epoch, line 45 never yields a number. *)
Lemma str_epoch_line_45 t s v :
  (product <~ py_mul repeat_fails (PyStr s) (2 ^ 40 - 1) ;;
   unixms <~ py_add_int t product ;; Returns unixms) <> Returns v.
Proof.
  unfold py_mul. destruct (repeat_fails s (2 ^ 40 - 1)) as [[] |];
    cbn [bind_outcome py_add_int]; discriminate.
Qed.

(** X18.  Called with one argument, the script prints the decimal
    rendering of what [unixms] returns with its default epoch, and ends in
    the [ValueError] of [unixms] when it raises one. *)
Theorem unixms_main_one_argument prog id_val :
  (forall v, unixms id_val 1 = OK v ->
     unixms_main repeat_fails [prog; id_val] = Returns (str_of_int v)) /\
  (forall x, unixms id_val 1 = Raise x ->
     unixms_main repeat_fails [prog; id_val] = Throws (Value x)).
Proof.
  unfold unixms_main. cbn [tl]. rewrite unixms_dyn_int.
  split; intros y Hy; rewrite Hy; reflexivity.
Qed.

(** X19.  A second command-line argument never sets the epoch.  It
    reaches [unixms] as a string: for an 18-character input it is
    overwritten by the selector, so the run is the one without it; for
    any other input nothing is printed, since the length error is raised
    or line 45 fails on the string. *)
Theorem unixms_main_second_argument prog id_val epoch :
  (length (strip_prefix id_val) = 18%nat ->
   unixms_main repeat_fails [prog; id_val; epoch]
   = unixms_main repeat_fails [prog; id_val]) /\
  (length (strip_prefix id_val) <> 18%nat ->
   forall line, unixms_main repeat_fails [prog; id_val; epoch] <> Returns line).
Proof.
  unfold unixms_main. cbn [tl]. split.
  - intros H18. f_equal.
    unfold unixms_dyn. fold (strip_prefix id_val). cbv zeta.
    rewrite H18. reflexivity.
  - intros H18 line.
    assert (H : forall v, unixms_dyn repeat_fails id_val (PyStr epoch) <> Returns v).
    { intros v. unfold unixms_dyn. fold (strip_prefix id_val).
      set (s := strip_prefix id_val) in *. cbv zeta. cbn [existsb].
      destruct (Nat.eqb_spec (length s) 18); [contradiction |].
      destruct (Nat.eqb_spec (length s) 16); cbn [orb negb]; [| discriminate].
      cbn [bind_outcome].
      destruct (Nat.eqb_spec (length s) 16); [| contradiction]. cbn [negb].
      destruct (Py.fromhex s) as [raw_bytes | x]; cbn [lift bind_outcome];
        [| discriminate].
      destruct (_ <? 3)%nat; [discriminate |].
      destruct (Py.int _ 16) as [t | x]; cbn [lift bind_outcome];
        [| discriminate].
      apply str_epoch_line_45. }
    destruct (unixms_dyn repeat_fails id_val (PyStr epoch)) as [v | x] eqn:Hd;
      cbn [bind_outcome]; [| discriminate].
    exfalso. exact (H v eq_refl).
Qed.

End UnixmsCommandProofs.

Lemma unixms_main_one_argument_witness :
  unixms_main (fun _ _ => Some NoMemory)
    [lit "idtimestamp-unixms.py"; lit "0x019a3b5c7d8e9f0011"]
  = Returns (lit "1761932508557").
Proof.
  apply (proj1 (unixms_main_one_argument (fun _ _ => Some NoMemory)
                  (lit "idtimestamp-unixms.py") (lit "0x019a3b5c7d8e9f0011"))
           1761932508557).
  reflexivity.
Defined.

Lemma unixms_main_second_argument_witness :
  unixms_main (fun _ _ => Some NoMemory)
    [lit "idtimestamp-unixms.py"; lit "0000000000000000"; lit "2"]
  <> Returns (lit "2199023255550").
Proof.
  apply (proj2 (unixms_main_second_argument (fun _ _ => Some NoMemory)
                  (lit "idtimestamp-unixms.py") (lit "0000000000000000") (lit "2"))).
  simpl. lia.
Defined.
